(** * mcp-tavily-search: the tool registry, the result cache and the
      request dispatcher of [src/index.ts] and [src/tools.ts]

    The server is a TypeScript program over untyped JSON: the arguments of
    a tool call and the body of a backend response are whatever JSON the
    peer sent, and the [as] casts of the source check nothing at run time.
    The embedding therefore works on JavaScript values, with the handful of
    language operations the source uses (truthiness, [typeof], template
    literals, [Array.prototype.join], [String.prototype.slice],
    [JSON.stringify], object spread) written out.  The clock and the
    network are explicit parts of the state. *)

From stdpp Require Import base strings pretty list gmap.
From Stdlib Require Import ZArith Ascii String.

Local Open Scope Z_scope.
Set Warnings "-register-all".

(** ** JavaScript values *)

Module Js.

(** A number [JNum m e] is the decimal [m * 10^(-e)].  Every number the
    program itself computes is of this form: clock readings and TTLs are
    integers, and a response time is a difference of two clock readings
    divided by 1000.  Numbers read from JSON are finite decimals as well.
    Strings are sequences of code units.  An object lists its own
    properties in enumeration order, each key once. *)
Inductive JsValue : Type :=
  | JUndefined
  | JNull
  | JBool (b : bool)
  | JNum (m : Z) (e : nat)
  | JStr (s : string)
  | JArr (xs : list JsValue)
  | JObj (props : list (string * JsValue)).

Definition JInt (n : Z) : JsValue := JNum n 0.

(** The result of the ToIntegerOrInfinity abstract operation. *)
Inductive IntegerOrInfinity : Type :=
  | Finite (n : Z)
  | PosInfinity
  | NegInfinity.

(** [Array.prototype.join] on an array whose elements are already strings. *)
Fixpoint join (sep : string) (pieces : list string) : string :=
  match pieces with
  | [] => EmptyString
  | [p] => p
  | p :: rest => p +:+ sep +:+ join sep rest
  end.

(** The first [n] code units of a string. *)
Fixpoint str_take (n : nat) (s : string) : string :=
  match n, s with
  | O, _ => EmptyString
  | S _, EmptyString => EmptyString
  | S n', String c s' => String c (str_take n' s')
  end.

Fixpoint starts_with (prefix s : string) : bool :=
  match prefix, s with
  | EmptyString, _ => true
  | String _ _, EmptyString => false
  | String a p', String b s' => if Ascii.eqb a b then starts_with p' s' else false
  end.

(** Positional rendering of a finite decimal, as Number::toString gives it
    for magnitudes between 1e-6 and 1e21: the integer part, and the
    fraction digits without trailing zeros when there are any. *)
Fixpoint strip_trailing_zeros (frac : Z) (digits : nat) : Z * nat :=
  match digits with
  | O => (frac, O)
  | S d => if decide (frac `mod` 10 = 0)
           then strip_trailing_zeros (frac `div` 10) d
           else (frac, digits)
  end.

Fixpoint pad_digits (n : Z) (digits : nat) : string :=
  match digits with
  | O => EmptyString
  | S d => pad_digits (n `div` 10) d +:+ pretty (n `mod` 10)
  end.

Definition number_to_string (m : Z) (e : nat) : string :=
  let scale := 10 ^ Z.of_nat e in
  let a := Z.abs m in
  let '(frac, digits) := strip_trailing_zeros (a `mod` scale) e in
  (if decide (m < 0) then "-" else "") +:+ pretty (a `div` scale) +:+
  match digits with
  | O => ""
  | S _ => "." +:+ pad_digits frac digits
  end.

(** ToString, as a template literal [`${v}`] and [Array.prototype.join]
    apply it. *)
Fixpoint to_string (v : JsValue) : string :=
  match v with
  | JUndefined => "undefined"
  | JNull => "null"
  | JBool true => "true"
  | JBool false => "false"
  | JNum m e => number_to_string m e
  | JStr s => s
  | JArr xs =>
      join "," ((fix elems (l : list JsValue) : list string :=
                   match l with
                   | [] => []
                   | JUndefined :: l' => "" :: elems l'
                   | JNull :: l' => "" :: elems l'
                   | x :: l' => to_string x :: elems l'
                   end) xs)
  | JObj _ => "[object Object]"
  end.

(** One element of [Array.prototype.join]: [undefined] and [null] give the
    empty string. *)
Definition join_element (v : JsValue) : string :=
  match v with
  | JUndefined | JNull => ""
  | _ => to_string v
  end.

(** ToBoolean. *)
Definition truthy (v : JsValue) : bool :=
  match v with
  | JUndefined | JNull => false
  | JBool b => b
  | JNum m _ => negb (m =? 0)
  | JStr s => negb (String.eqb s "")
  | JArr _ | JObj _ => true
  end.

Definition typeof (v : JsValue) : string :=
  match v with
  | JUndefined => "undefined"
  | JNull => "object"
  | JBool _ => "boolean"
  | JNum _ _ => "number"
  | JStr _ => "string"
  | JArr _ | JObj _ => "object"
  end.

(** Lookup of an own property of an object literal or a parsed JSON
    object, by key. *)
Fixpoint lookup_prop (k : string) (props : list (string * JsValue)) : JsValue :=
  match props with
  | [] => JUndefined
  | (k', v) :: rest => if String.eqb k' k then v else lookup_prop k rest
  end.

(** [v?.k] for the identifier keys the program reads ([query],
    [search_depth], ...): a primitive or an array has no such property. *)
Definition opt_get (v : JsValue) (k : string) : JsValue :=
  match v with
  | JObj props => lookup_prop k props
  | _ => JUndefined
  end.

(** A destructuring default [{ k = d } = obj] applies to [undefined] only. *)
Definition or_default (d v : JsValue) : JsValue :=
  match v with
  | JUndefined => d
  | _ => v
  end.

(** [a || b]. *)
Definition or_else (a b : JsValue) : JsValue :=
  if truthy a then a else b.

(** Property definition [obj[k] = v]: an existing key keeps its place. *)
Fixpoint set_prop (k : string) (v : JsValue) (props : list (string * JsValue))
  : list (string * JsValue) :=
  match props with
  | [] => [(k, v)]
  | (k', v') :: rest =>
      if String.eqb k' k then (k, v) :: rest else (k', v') :: set_prop k v rest
  end.

Fixpoint indexed {A} (i : nat) (l : list A) : list (string * A) :=
  match l with
  | [] => []
  | x :: l' => (pretty i, x) :: indexed (S i) l'
  end.

Fixpoint code_units (s : string) : list JsValue :=
  match s with
  | EmptyString => []
  | String c s' => JStr (String c EmptyString) :: code_units s'
  end.

(** The own enumerable properties an object spread [{...v}] copies. *)
Definition spread (v : JsValue) : list (string * JsValue) :=
  match v with
  | JObj props => props
  | JArr xs => indexed 0 xs
  | JStr s => indexed 0 (code_units s)
  | _ => []
  end.

(** QuoteJSONString. *)
Definition hex_digit (n : N) : ascii :=
  ascii_of_N (if decide (n < 10)%N then 48 + n else 87 + n)%N.

Definition quote_char (c : ascii) : string :=
  let n := N_of_ascii c in
  if decide (n = 34)%N then "\" +:+ String (ascii_of_N 34) ""
  else if decide (n = 92)%N then "\\"
  else if decide (n = 8)%N then "\b"
  else if decide (n = 9)%N then "\t"
  else if decide (n = 10)%N then "\n"
  else if decide (n = 12)%N then "\f"
  else if decide (n = 13)%N then "\r"
  else if decide (n < 32)%N
       then "\u00" +:+ String (hex_digit (n / 16)) (String (hex_digit (n mod 16)) "")
  else String c "".

Fixpoint quote_body (s : string) : string :=
  match s with
  | EmptyString => EmptyString
  | String c s' => quote_char c +:+ quote_body s'
  end.

Definition dquote : string := String (ascii_of_N 34) "".

Definition quote (s : string) : string := dquote +:+ quote_body s +:+ dquote.

Definition newline : string := String (ascii_of_N 10) "".

(** SerializeJSONProperty with the indentation unit [gap] and the current
    indentation [indent]; [None] is JavaScript's [undefined] result.  An
    object property whose value serializes to [undefined] is left out, an
    array element is written [null]. *)
Fixpoint serialize (gap indent : string) (v : JsValue) : option string :=
  let inner := indent +:+ gap in
  let wrap (open close : string) (partial : list string) : string :=
    match partial with
    | [] => open +:+ close
    | _ =>
        if String.eqb gap ""
        then open +:+ join "," partial +:+ close
        else open +:+ newline +:+ inner +:+
             join ("," +:+ newline +:+ inner) partial +:+
             newline +:+ indent +:+ close
    end in
  match v with
  | JUndefined => None
  | JNull => Some "null"
  | JBool true => Some "true"
  | JBool false => Some "false"
  | JNum m e => Some (number_to_string m e)
  | JStr s => Some (quote s)
  | JArr xs =>
      Some (wrap "[" "]"
        ((fix elems (l : list JsValue) : list string :=
            match l with
            | [] => []
            | x :: l' => default "null" (serialize gap inner x) :: elems l'
            end) xs))
  | JObj props =>
      Some (wrap "{" "}"
        ((fix members (l : list (string * JsValue)) : list string :=
            match l with
            | [] => []
            | (k, x) :: l' =>
                match serialize gap inner x with
                | Some str =>
                    (quote k +:+ ":" +:+
                     (if String.eqb gap "" then "" else " ") +:+ str)
                    :: members l'
                | None => members l'
                end
            end) props))
  end.

(** [JSON.stringify(v)] and [JSON.stringify(v, null, 2)]; the result is a
    string, or [undefined] when [v] is. *)
Definition JSON_stringify (v : JsValue) : JsValue :=
  match serialize "" "" v with
  | Some str => JStr str
  | None => JUndefined
  end.

Definition JSON_stringify_2 (v : JsValue) : JsValue :=
  match serialize "  " "" v with
  | Some str => JStr str
  | None => JUndefined
  end.

(** What the engine can fault on in the code modelled here. *)
Inductive Fault : Type :=
  | ReadOfNullish (base : JsValue) (key : string)
  | NotAFunction (receiver : JsValue) (method : string).

(** The error codes of the protocol SDK that the source uses. *)
Inductive ErrorCode : Type :=
  | MethodNotFound
  | InvalidParams.

(** Parts of the platform the source relies on and that are not part of
    the repository: the engine's conversion of a string to a number
    (followed by ToIntegerOrInfinity), the wording of the engine's
    TypeErrors, and the [message] the SDK's [McpError] constructor builds
    from a code and a text. *)
Class Host : Type := {
  string_to_integer : string -> IntegerOrInfinity;
  fault_message : Fault -> string;
  McpError_message : ErrorCode -> string -> string
}.

(** ToIntegerOrInfinity: a number is truncated towards zero. *)
Definition to_integer_or_infinity `{Host} (v : JsValue) : IntegerOrInfinity :=
  match v with
  | JUndefined | JNull => Finite 0
  | JBool b => Finite (if b then 1 else 0)
  | JNum m e => Finite (m `quot` 10 ^ Z.of_nat e)
  | JStr s => string_to_integer s
  | JArr _ | JObj _ => string_to_integer (to_string v)
  end.

(** [s.slice(0, end)]: an [undefined] end is the length, a negative end
    counts from the end of the string. *)
Definition slice_from_0 `{Host} (s : string) (end_ : JsValue) : string :=
  let len := Z.of_nat (String.length s) in
  let int_end :=
    match end_ with
    | JUndefined => len
    | _ =>
        match to_integer_or_infinity end_ with
        | NegInfinity => 0
        | Finite n => if decide (n < 0) then Z.max (len + n) 0 else Z.min n len
        | PosInfinity => len
        end
    end in
  str_take (Z.to_nat int_end) s.

End Js.

Import Js.

(** ** The tool registry ([src/tools.ts]) *)

Record TavilyToolConfig : Type := {
  name : string;
  description : string;
  inputSchema : JsValue
}.

Definition TAVILY_TOOLS : list TavilyToolConfig := [
  {| name := "tavily_search";
     description :=
       "Search the web using Tavily Search API, optimized for high-quality, factual results";
     inputSchema := JObj [
       ("type", JStr "object");
       ("properties", JObj [
          ("query", JObj [
             ("type", JStr "string");
             ("description", JStr "Search query")]);
          ("search_depth", JObj [
             ("type", JStr "string");
             ("description",
              JStr ("The depth of the search (" +:+ dquote +:+ "basic" +:+ dquote +:+
                    " for faster results, " +:+ dquote +:+ "advanced" +:+ dquote +:+
                    " for more thorough search)"));
             ("enum", JArr [JStr "basic"; JStr "advanced"]);
             ("default", JStr "basic")]);
          ("include_answer", JObj [
             ("type", JStr "boolean");
             ("description",
              JStr "Include an AI-generated answer based on search results");
             ("default", JBool true)]);
          ("include_domains", JObj [
             ("type", JStr "array");
             ("items", JObj [("type", JStr "string")]);
             ("description", JStr "List of trusted domains to include in search");
             ("default", JArr [])]);
          ("exclude_domains", JObj [
             ("type", JStr "array");
             ("items", JObj [("type", JStr "string")]);
             ("description", JStr "List of domains to exclude from search");
             ("default", JArr [])]);
          ("response_format", JObj [
             ("type", JStr "string");
             ("enum", JArr [JStr "text"; JStr "json"; JStr "markdown"]);
             ("description", JStr "Format of the search results");
             ("default", JStr "text")]);
          ("max_results", JObj [
             ("type", JStr "number");
             ("description", JStr "Maximum number of results to return");
             ("default", JInt 10)]);
          ("min_score", JObj [
             ("type", JStr "number");
             ("description", JStr "Minimum relevancy score for results (0-1)");
             ("default", JInt 0)]);
          ("cache_ttl", JObj [
             ("type", JStr "number");
             ("description", JStr "Cache time-to-live in seconds");
             ("default", JInt 3600)]);
          ("force_refresh", JObj [
             ("type", JStr "boolean");
             ("description", JStr "Force fresh results ignoring cache");
             ("default", JBool false)])]);
       ("required", JArr [JStr "query"])] |};
  {| name := "tavily_get_search_context";
     description := "Generate context for RAG applications using Tavily search";
     inputSchema := JObj [
       ("type", JStr "object");
       ("properties", JObj [
          ("query", JObj [
             ("type", JStr "string");
             ("description", JStr "Search query for context generation")]);
          ("max_tokens", JObj [
             ("type", JStr "number");
             ("description", JStr "Maximum length of generated context");
             ("default", JInt 2000)]);
          ("response_format", JObj [
             ("type", JStr "string");
             ("enum", JArr [JStr "text"; JStr "json"]);
             ("description", JStr "Format of the context response");
             ("default", JStr "text")])]);
       ("required", JArr [JStr "query"])] |};
  {| name := "tavily_qna_search";
     description := "Get direct answers to questions using Tavily search";
     inputSchema := JObj [
       ("type", JStr "object");
       ("properties", JObj [
          ("query", JObj [
             ("type", JStr "string");
             ("description", JStr "Question to be answered")]);
          ("include_sources", JObj [
             ("type", JStr "boolean");
             ("description", JStr "Include source citations in the answer");
             ("default", JBool true)]);
          ("response_format", JObj [
             ("type", JStr "string");
             ("enum", JArr [JStr "text"; JStr "json"]);
             ("description", JStr "Format of the answer response");
             ("default", JStr "text")])]);
       ("required", JArr [JStr "query"])] |}
].

(** Reading the registry: the tool of a given name, the fields its schema
    enumerates, and the default it declares for a field ([undefined] when
    the schema has no such field or declares no default for it). *)
Definition find_tool (tool_name : string) : option TavilyToolConfig :=
  List.find (fun t => String.eqb (name t) tool_name) TAVILY_TOOLS.

Definition schema_fields (t : TavilyToolConfig) : list string :=
  (spread (opt_get (inputSchema t) "properties")).*1.

Definition schema_default (t : TavilyToolConfig) (field : string) : JsValue :=
  opt_get (opt_get (opt_get (inputSchema t) "properties") field) "default".

(** ** Errors *)

Inductive JsError : Type :=
  | TavilyError (message code : string) (details : JsValue)
  | McpError (code : ErrorCode) (message : string)
  | TypeError (fault : Fault)
  | PlatformError (message : string).

(** [error.message] of an [Error] that is not a [TavilyError]. *)
Definition error_message `{Host} (error : JsError) : string :=
  match error with
  | TavilyError message _ _ => message
  | McpError code message => McpError_message code message
  | TypeError fault => fault_message fault
  | PlatformError message => message
  end.

Module error_handler.

Definition format_error `{Host} (error : JsError) : string :=
  match error with
  | TavilyError message code _ =>
      "Tavily API Error (" +:+ code +:+ "): " +:+ message
  | _ => "Error: " +:+ error_message error
  end.

Definition get_error_code (error : JsError) : string :=
  match error with
  | TavilyError _ code _ => code
  | _ => "UNKNOWN_ERROR"
  end.

Definition get_error_details (error : JsError) : JsValue :=
  match error with
  | TavilyError _ _ details => details
  | _ => JNull
  end.

End error_handler.

(** Synchronous code that may throw. *)
Definition Result (A : Type) : Type := JsError + A.

Definition result_bind {A B} (r : Result A) (k : A -> Result B) : Result B :=
  match r with
  | inl e => inl e
  | inr a => k a
  end.

(** [v.k] on a value that may be [null] or [undefined]. *)
Definition member (v : JsValue) (k : string) : Result JsValue :=
  match v with
  | JUndefined | JNull => inl (TypeError (ReadOfNullish v k))
  | _ => inr (opt_get v k)
  end.

(** [v.map((x, i) => f(x, i))] with a callback that may throw: the receiver
    has to be an array. *)
Fixpoint map_indexed {A} (f : JsValue -> nat -> Result A) (i : nat) (xs : list JsValue)
  : Result (list A) :=
  match xs with
  | [] => inr []
  | x :: xs' =>
      result_bind (f x i) (fun y =>
      result_bind (map_indexed f (S i) xs') (fun ys => inr (y :: ys)))
  end.

Definition array_map {A} (v : JsValue) (f : JsValue -> nat -> Result A)
  : Result (list A) :=
  match v with
  | JUndefined | JNull => inl (TypeError (ReadOfNullish v "map"))
  | JArr xs => map_indexed f 0 xs
  | _ => inl (TypeError (NotAFunction v "map"))
  end.

(** ** Response formatters *)

Module response_formatters.

Definition text (data : JsValue) : Result string :=
  result_bind (member data "query") (fun query =>
  let output := "Search Results for " +:+ dquote +:+ to_string query +:+ dquote +:+
                ":" +:+ newline +:+ newline in
  result_bind (member data "answer") (fun answer =>
  let output :=
    if truthy answer
    then output +:+ "Summary: " +:+ to_string answer +:+ newline +:+ newline +:+
         "Detailed Sources:" +:+ newline
    else output in
  result_bind (member data "results") (fun results =>
  result_bind (array_map results (fun result i =>
    result_bind (member result "title") (fun title =>
    let source := pretty (i + 1)%nat +:+ ". " +:+ to_string title +:+ newline in
    result_bind (member result "url") (fun url =>
    let source := source +:+ "   URL: " +:+ to_string url +:+ newline in
    result_bind (member result "published_date") (fun published_date =>
    let source :=
      if truthy published_date
      then source +:+ "   Published: " +:+ to_string published_date +:+ newline
      else source in
    result_bind (member result "content") (fun content =>
    inr (source +:+ "   Content: " +:+ to_string content +:+ newline))))))) (fun sources =>
  inr (output +:+ join newline sources))))).

Definition json (data : JsValue) : JsValue := JSON_stringify_2 data.

Definition markdown (data : JsValue) : Result string :=
  result_bind (member data "query") (fun query =>
  let output := "# Search Results: " +:+ to_string query +:+ newline +:+ newline in
  result_bind (member data "answer") (fun answer =>
  let output :=
    if truthy answer
    then output +:+ "## Summary" +:+ newline +:+ to_string answer +:+ newline +:+
         newline +:+ "## Sources" +:+ newline
    else output in
  result_bind (member data "results") (fun results =>
  result_bind (array_map results (fun result _ =>
    result_bind (member result "title") (fun title =>
    let source := "### " +:+ to_string title +:+ newline in
    result_bind (member result "url") (fun url =>
    let source := source +:+ "- URL: [" +:+ to_string url +:+ "](" +:+
                  to_string url +:+ ")" +:+ newline in
    result_bind (member result "published_date") (fun published_date =>
    let source :=
      if truthy published_date
      then source +:+ "- Published: " +:+ to_string published_date +:+ newline
      else source in
    result_bind (member result "content") (fun content =>
    inr (source +:+ newline +:+ to_string content +:+ newline))))))) (fun sources =>
  inr (output +:+ join (newline +:+ "---" +:+ newline) sources))))).

End response_formatters.

(** ** The cache *)

Record CacheEntry : Type := {
  data : JsValue;
  timestamp : Z;
  ttl : Z
}.

(** The methods of [class TavilyCache] on the underlying [Map], with the
    reading of [Date.now()] (milliseconds) passed in.  [get] returns the
    value together with the map it leaves behind. *)
Module TavilyCache.

Definition set (cache : gmap string CacheEntry) (key : string) (data : JsValue)
    (ttl : Z) (now : Z) : gmap string CacheEntry :=
  <[key := {| data := data; timestamp := now; ttl := ttl |}]> cache.

Definition get (cache : gmap string CacheEntry) (key : string) (now : Z)
  : JsValue * gmap string CacheEntry :=
  match cache !! key with
  | None => (JNull, cache)
  | Some entry =>
      if decide (now - timestamp entry > ttl entry * 1000)
      then (JNull, delete key cache)
      else (data entry, cache)
  end.

Definition clear (cache : gmap string CacheEntry) : gmap string CacheEntry := ∅.

End TavilyCache.

(** ** The world the server runs in *)

(** An HTTP response of the backend; [body] is what [response.json()]
    resolves to, or the message of the error it rejects with. *)
Record Response : Type := {
  status : Z;
  statusText : string;
  body : string + JsValue
}.

(** [response.ok]: the status is in the range 200-299. *)
Definition ok (r : Response) : bool :=
  bool_decide (200 <= status r <= 299).

(** What the network does with one [fetch], after [latency] milliseconds. *)
Inductive FetchReply : Type :=
  | Rejects (latency : Z) (message : string)
  | Responds (latency : Z) (response : Response).

(** The server's cache, the clock (milliseconds), the replies the network
    will give to the coming requests, and the request bodies sent so far.
    Within a call the clock moves only while a [fetch] is awaited. *)
Record World : Type := {
  cache : gmap string CacheEntry;
  now : Z;
  network : list FetchReply;
  sent : list JsValue
}.

Definition M (A : Type) : Type := World -> Result A * World.

Definition ret {A} (a : A) : M A := fun w => (inr a, w).

Definition throw {A} (e : JsError) : M A := fun w => (inl e, w).

Definition bind {A B} (m : M A) (k : A -> M B) : M B :=
  fun w =>
    match m w with
    | (inl e, w') => (inl e, w')
    | (inr a, w') => k a w'
    end.

Definition try_catch {A} (m : M A) (handler : JsError -> M A) : M A :=
  fun w =>
    match m w with
    | (inl e, w') => handler e w'
    | (inr a, w') => (inr a, w')
    end.

Definition lift {A} (r : Result A) : M A := fun w => (r, w).

#[global] Instance M_ret : MRet M := @ret.
#[global] Instance M_bind : MBind M := fun A B k m => bind m k.

Definition Date_now : M Z := fun w => (inr (now w), w).

Definition cache_get (key : string) : M JsValue :=
  fun w =>
    let '(v, c) := TavilyCache.get (cache w) key (now w) in
    (inr v, {| cache := c; now := now w; network := network w; sent := sent w |}).

Definition cache_set (key : string) (data : JsValue) (ttl : Z) : M unit :=
  fun w =>
    (inr tt, {| cache := TavilyCache.set (cache w) key data ttl (now w);
                now := now w; network := network w; sent := sent w |}).

(** [await fetch('https://api.tavily.com/search', { method: 'POST', ...,
    body })]: the request is recorded, the next reply of the network is
    consumed and its latency passes.  A network with no reply left
    refuses the connection. *)
Definition fetch (request_body : JsValue) : M Response :=
  fun w =>
    match network w with
    | [] =>
        (inl (PlatformError "fetch failed"),
         {| cache := cache w; now := now w; network := [];
            sent := sent w ++ [request_body] |})
    | Rejects latency message :: rest =>
        (inl (PlatformError message),
         {| cache := cache w; now := now w + latency; network := rest;
            sent := sent w ++ [request_body] |})
    | Responds latency response :: rest =>
        (inr response,
         {| cache := cache w; now := now w + latency; network := rest;
            sent := sent w ++ [request_body] |})
    end.

(** [await response.json()] *)
Definition response_json (r : Response) : M JsValue :=
  match body r with
  | inl message => throw (PlatformError message)
  | inr v => ret v
  end.

(** Time passing between two requests. *)
Definition elapse (ms : Z) (w : World) : World :=
  {| cache := cache w; now := now w + ms; network := network w; sent := sent w |}.

(** ** The server *)

Record ContentItem : Type := {
  type : string;
  text : JsValue
}.

(** The value a tool call resolves to; [isError] is [None] where the
    source leaves the property out. *)
Record ToolResult : Type := {
  content : list ContentItem;
  isError : option bool
}.

Record TavilySearchParams : Type := {
  query : JsValue;
  search_depth : JsValue;
  topic : JsValue;
  days : JsValue;
  time_range : JsValue;
  max_results : JsValue;
  include_images : JsValue;
  include_image_descriptions : JsValue;
  include_answer : JsValue;
  include_raw_content : JsValue;
  include_domains : JsValue;
  exclude_domains : JsValue
}.

Record TavilyContextParams : Type := {
  ctx_query : JsValue;
  ctx_max_tokens : JsValue;
  ctx_search_depth : JsValue;
  ctx_topic : JsValue;
  ctx_days : JsValue;
  ctx_time_range : JsValue;
  ctx_max_results : JsValue;
  ctx_include_domains : JsValue;
  ctx_exclude_domains : JsValue
}.

Record TavilyQnAParams : Type := {
  qna_query : JsValue;
  qna_search_depth : JsValue;
  qna_topic : JsValue;
  qna_days : JsValue;
  qna_time_range : JsValue;
  qna_max_results : JsValue;
  qna_include_domains : JsValue;
  qna_exclude_domains : JsValue
}.

(** The serialization of an object literal is always a string. *)
Definition stringify_object (gap : string) (props : list (string * JsValue)) : string :=
  default "" (serialize gap "" (JObj props)).

Definition default_include_domains : JsValue := JArr [].
Definition default_exclude_domains : JsValue := JArr [].

Definition api_error (response : Response) : JsError :=
  TavilyError ("API request failed: " +:+ statusText response) "API_ERROR"
              (JObj [("status", JInt (status response))]).

Definition text_result (t : JsValue) : ToolResult :=
  {| content := [{| type := "text"; text := t |}]; isError := None |}.

(** The destructuring patterns that open the three handlers: a property
    that is [undefined] takes the default written in the pattern. *)
Definition destructure_search (args : TavilySearchParams) : TavilySearchParams := {|
  query := query args;
  search_depth := or_default (JStr "basic") (search_depth args);
  topic := or_default (JStr "general") (topic args);
  days := days args;
  time_range := time_range args;
  max_results := or_default (JInt 5) (max_results args);
  include_images := or_default (JBool false) (include_images args);
  include_image_descriptions :=
    or_default (JBool false) (include_image_descriptions args);
  include_answer := or_default (JBool false) (include_answer args);
  include_raw_content := or_default (JBool false) (include_raw_content args);
  include_domains := or_default default_include_domains (include_domains args);
  exclude_domains := or_default default_exclude_domains (exclude_domains args)
|}.

Definition destructure_context (args : TavilyContextParams) : TavilyContextParams := {|
  ctx_query := ctx_query args;
  ctx_max_tokens := or_default (JInt 2000) (ctx_max_tokens args);
  ctx_search_depth := or_default (JStr "advanced") (ctx_search_depth args);
  ctx_topic := or_default (JStr "general") (ctx_topic args);
  ctx_days := ctx_days args;
  ctx_time_range := ctx_time_range args;
  ctx_max_results := or_default (JInt 5) (ctx_max_results args);
  ctx_include_domains := or_default default_include_domains (ctx_include_domains args);
  ctx_exclude_domains := or_default default_exclude_domains (ctx_exclude_domains args)
|}.

Definition destructure_qna (args : TavilyQnAParams) : TavilyQnAParams := {|
  qna_query := qna_query args;
  qna_search_depth := or_default (JStr "advanced") (qna_search_depth args);
  qna_topic := or_default (JStr "general") (qna_topic args);
  qna_days := qna_days args;
  qna_time_range := qna_time_range args;
  qna_max_results := or_default (JInt 5) (qna_max_results args);
  qna_include_domains := or_default default_include_domains (qna_include_domains args);
  qna_exclude_domains := or_default default_exclude_domains (qna_exclude_domains args)
|}.

(** [cache_key] of [handle_search], from the destructured variables. *)
Definition cache_key (p : TavilySearchParams) : string :=
  stringify_object "" [
    ("query", query p);
    ("search_depth", search_depth p);
    ("topic", topic p);
    ("include_answer", include_answer p);
    ("include_images", include_images p);
    ("include_raw_content", include_raw_content p)].

(** The [body] of the three requests to the backend. *)
Definition search_body (p : TavilySearchParams) : JsValue :=
  JSON_stringify (JObj [
    ("query", query p);
    ("search_depth", search_depth p);
    ("topic", topic p);
    ("days", days p);
    ("time_range", time_range p);
    ("max_results", max_results p);
    ("include_images", include_images p);
    ("include_image_descriptions", include_image_descriptions p);
    ("include_answer", include_answer p);
    ("include_raw_content", include_raw_content p);
    ("include_domains", include_domains p);
    ("exclude_domains", exclude_domains p)]).

Definition context_body (p : TavilyContextParams) : JsValue :=
  JSON_stringify (JObj [
    ("query", ctx_query p);
    ("search_depth", ctx_search_depth p);
    ("topic", ctx_topic p);
    ("days", ctx_days p);
    ("time_range", ctx_time_range p);
    ("max_results", ctx_max_results p);
    ("include_domains", ctx_include_domains p);
    ("exclude_domains", ctx_exclude_domains p);
    ("max_tokens", ctx_max_tokens p);
    ("include_answer", JBool false)]).

Definition qna_body (p : TavilyQnAParams) : JsValue :=
  JSON_stringify (JObj [
    ("query", qna_query p);
    ("search_depth", qna_search_depth p);
    ("topic", qna_topic p);
    ("days", qna_days p);
    ("time_range", qna_time_range p);
    ("max_results", qna_max_results p);
    ("include_domains", qna_include_domains p);
    ("exclude_domains", qna_exclude_domains p);
    ("include_answer", JBool true)]).

(** The [args] literals the dispatcher builds from [rawArgs]; the casts
    of the source do nothing at run time. *)
Definition search_args (rawArgs : JsValue) : TavilySearchParams := {|
  query := opt_get rawArgs "query";
  search_depth := opt_get rawArgs "search_depth";
  topic := opt_get rawArgs "topic";
  days := opt_get rawArgs "days";
  time_range := opt_get rawArgs "time_range";
  max_results := opt_get rawArgs "max_results";
  include_images := opt_get rawArgs "include_images";
  include_image_descriptions := opt_get rawArgs "include_image_descriptions";
  include_answer := opt_get rawArgs "include_answer";
  include_raw_content := opt_get rawArgs "include_raw_content";
  include_domains := opt_get rawArgs "include_domains";
  exclude_domains := opt_get rawArgs "exclude_domains"
|}.

Definition context_args (rawArgs : JsValue) : TavilyContextParams := {|
  ctx_query := opt_get rawArgs "query";
  ctx_max_tokens := opt_get rawArgs "max_tokens";
  ctx_search_depth := opt_get rawArgs "search_depth";
  ctx_topic := opt_get rawArgs "topic";
  ctx_days := opt_get rawArgs "days";
  ctx_time_range := opt_get rawArgs "time_range";
  ctx_max_results := opt_get rawArgs "max_results";
  ctx_include_domains := opt_get rawArgs "include_domains";
  ctx_exclude_domains := opt_get rawArgs "exclude_domains"
|}.

Definition qna_args (rawArgs : JsValue) : TavilyQnAParams := {|
  qna_query := opt_get rawArgs "query";
  qna_search_depth := opt_get rawArgs "search_depth";
  qna_topic := opt_get rawArgs "topic";
  qna_days := opt_get rawArgs "days";
  qna_time_range := opt_get rawArgs "time_range";
  qna_max_results := opt_get rawArgs "max_results";
  qna_include_domains := opt_get rawArgs "include_domains";
  qna_exclude_domains := opt_get rawArgs "exclude_domains"
|}.

(** The guard [!rawArgs?.query || typeof rawArgs.query !== 'string']. *)
Definition query_rejected (rawArgs : JsValue) : bool :=
  negb (truthy (opt_get rawArgs "query")) ||
  negb (String.eqb (typeof (opt_get rawArgs "query")) "string").

Definition query_required : JsError :=
  McpError InvalidParams "Query parameter is required and must be a string".

(** The handler of [ListToolsRequestSchema]. *)
Definition list_tools : list TavilyToolConfig := TAVILY_TOOLS.

Section Server.
Context `{Host}.

Definition handle_search (args : TavilySearchParams) : M ToolResult :=
  let p := destructure_search args in
  let cache_key := cache_key p in
  cached_data ← cache_get cache_key;
  if truthy cached_data
  then mret (text_result (JSON_stringify_2 cached_data))
  else
    start_time ← Date_now;
    response ← fetch (search_body p);
    if negb (ok response)
    then throw (api_error response)
    else
      data ← response_json response;
      end_time ← Date_now;
      let response_time := JNum (end_time - start_time) 3 in
      let search_response :=
        JObj (set_prop "response_time" response_time (spread data)) in
      cache_set cache_key search_response 3600;;
      mret (text_result (JSON_stringify_2 search_response)).

Definition handle_context (args : TavilyContextParams) : M ToolResult :=
  let p := destructure_context args in
  response ← fetch (context_body p);
  if negb (ok response)
  then throw (api_error response)
  else
    data ← response_json response;
    results ← lift (member data "results");
    contents ← lift (array_map results (fun result _ => member result "content"));
    let context :=
      slice_from_0 (join (newline +:+ newline) (join_element <$> contents))
                   (ctx_max_tokens p) in
    mret (text_result (JStr context)).

Definition handle_qna (args : TavilyQnAParams) : M ToolResult :=
  let p := destructure_qna args in
  response ← fetch (qna_body p);
  if negb (ok response)
  then throw (api_error response)
  else
    data ← response_json response;
    answer ← lift (member data "answer");
    mret (text_result (or_else answer (JStr "No answer found."))).

(** What the [catch] of the dispatcher returns. *)
Definition error_result (error : JsError) : ToolResult :=
  {| content := [{| type := "text";
                    text := JStr (error_handler.format_error error) |}];
     isError := Some true |}.

(** The handler of [CallToolRequestSchema], for a request with
    [params.name = tool_name] and [params.arguments = arguments]
    ([undefined] when the request has none).  An error that leaves it,
    [inl], is answered by the SDK as a protocol error; a value, [inr], is
    the tool result. *)
Definition call_tool (tool_name : string) (arguments : JsValue) : M ToolResult :=
  match find_tool tool_name with
  | None => throw (McpError MethodNotFound ("Unknown tool: " +:+ tool_name))
  | Some tool =>
      try_catch
        (if String.eqb tool_name "tavily_search" then
           let rawArgs := arguments in
           if query_rejected rawArgs then throw query_required
           else handle_search (search_args rawArgs)
         else if String.eqb tool_name "tavily_get_search_context" then
           let rawArgs := arguments in
           if query_rejected rawArgs then throw query_required
           else handle_context (context_args rawArgs)
         else if String.eqb tool_name "tavily_qna_search" then
           let rawArgs := arguments in
           if query_rejected rawArgs then throw query_required
           else handle_qna (qna_args rawArgs)
         else
           throw (McpError MethodNotFound ("Unimplemented tool: " +:+ tool_name)))
        (fun error => mret (error_result error))
  end.

End Server.

(** ** Concrete inputs *)

(** A host in the manner of Node.js: the SDK's [McpError] prefixes the
    text with the numeric code. *)
Definition node_host : Host := {|
  string_to_integer := fun _ => Finite 0;
  fault_message := fun f =>
    match f with
    | ReadOfNullish base key =>
        "Cannot read properties of " +:+ to_string base +:+ " (reading '" +:+ key +:+ "')"
    | NotAFunction _ method => method +:+ " is not a function"
    end;
  McpError_message := fun code message =>
    "MCP error " +:+
    match code with MethodNotFound => "-32601" | InvalidParams => "-32602" end +:+
    ": " +:+ message
|}.

Definition http_ok (latency : Z) (json : JsValue) : FetchReply :=
  Responds latency {| status := 200; statusText := "OK"; body := inr json |}.

Definition start (replies : list FetchReply) : World :=
  {| cache := ∅; now := 1700000000000; network := replies; sent := [] |}.

(** The backend response of the specification's end-to-end scenario. *)
Definition rust_data : JsValue := JObj [
  ("query", JStr "rust ownership");
  ("answer", JStr "Rust uses ownership to manage memory.");
  ("results", JArr [JObj [
     ("title", JStr "Ownership - Rust Book");
     ("url", JStr "https://doc.rust-lang.org/book/ch04-00-ownership.html");
     ("content", JStr "...");
     ("score", JNum 9 1)]])].

Definition stale_data : JsValue := JObj [
  ("query", JStr "rust ownership");
  ("results", JArr [])].

Definition the_text (out : Result ToolResult * World) : JsValue :=
  match out.1 with
  | inr {| content := [item] |} => text item
  | _ => JUndefined
  end.

Definition rust_args : JsValue := JObj [("query", JStr "rust ownership")].

Definition text_header : string :=
  "Search Results for " +:+ dquote +:+ "rust ownership" +:+ dquote +:+ ":".

Definition is_prefix_of (prefix : string) (v : JsValue) : bool :=
  match v with
  | JStr s => starts_with prefix s
  | _ => false
  end.

(** The fifteen parameters of the search tool: the twelve fields of
    [TavilySearchParams] ([types.ts]), which the dispatcher reads, and the
    three further ones that [README.md] documents. *)
Definition documented_search_fields : list string := [
  "query"; "search_depth"; "topic"; "days"; "time_range"; "max_results";
  "include_images"; "include_image_descriptions"; "include_answer";
  "include_raw_content"; "include_domains"; "exclude_domains";
  "response_format"; "cache_ttl"; "force_refresh"].

(** An entry for [key] that a read at time [t] would still return. *)
Definition live (c : gmap string CacheEntry) (key : string) (t : Z) : Prop :=
  match c !! key with
  | Some entry => t - timestamp entry <= ttl entry * 1000
  | None => False
  end.

(** The properties of the arguments that [cache_key] depends on. *)
Definition cache_key_fields : list string :=
  ["query"; "search_depth"; "topic"; "include_answer"; "include_images";
   "include_raw_content"].

Definition tool_names : list string :=
  ["tavily_search"; "tavily_get_search_context"; "tavily_qna_search"].

Definition two_replies : list FetchReply :=
  [http_ok 250 rust_data; http_ok 100 stale_data].

(** The world after a first search for "rust ownership", and its result. *)
Definition first_search `{Host} (raw : JsValue) : Result ToolResult * World :=
  call_tool "tavily_search" raw (start two_replies).

Definition rust_search_response : JsValue := JObj [
  ("query", JStr "rust ownership");
  ("answer", JStr "Rust uses ownership to manage memory.");
  ("results", JArr [JObj [
     ("title", JStr "Ownership - Rust Book");
     ("url", JStr "https://doc.rust-lang.org/book/ch04-00-ownership.html");
     ("content", JStr "...");
     ("score", JNum 9 1)]]);
  ("response_time", JNum 250 3)].

Definition rust_key : string :=
  cache_key (destructure_search (search_args rust_args)).


Definition context_json : JsValue := JObj [
  ("query", JStr "rust ownership");
  ("results", JArr [
     JObj [("title", JStr "One"); ("content", JStr "hello world")];
     JObj [("title", JStr "Two"); ("content", JStr "second")]])].



(** A backend that answers with a server error. *)
Definition http_500 : FetchReply :=
  Responds 40 {| status := 500; statusText := "Internal Server Error";
                 body := inl "Unexpected end of JSON input" |}.

(** ** The earlier server (the second program of [src/index.ts])

    One tool, no cache, no validation of the query; the result is rendered
    as text. *)

Module Legacy.

Definition defaultIncludeDomains : JsValue := JArr [
  JStr "arxiv.org"; JStr "scholar.google.com"; JStr "science.gov";
  JStr "wikipedia.org"; JStr "github.com"; JStr "stackoverflow.com";
  JStr "developer.mozilla.org"].

Definition defaultExcludeDomains : JsValue := JArr [
  JStr "facebook.com"; JStr "twitter.com"; JStr "instagram.com";
  JStr "tiktok.com"].

Definition formatSearchResults (data : JsValue) : Result string :=
  result_bind (member data "query") (fun query =>
  let formattedText := "Search Results for " +:+ dquote +:+ to_string query +:+
                       dquote +:+ ":" +:+ newline +:+ newline in
  result_bind (member data "answer") (fun answer =>
  let formattedText :=
    if truthy answer
    then formattedText +:+ "Summary: " +:+ to_string answer +:+ newline +:+
         newline +:+ "Detailed Sources:" +:+ newline
    else formattedText in
  result_bind (member data "results") (fun results =>
  result_bind (array_map results (fun result i =>
    result_bind (member result "title") (fun title =>
    result_bind (member result "url") (fun url =>
    let source := pretty (i + 1)%nat +:+ ". " +:+ to_string title +:+ newline +:+
                  "   URL: " +:+ to_string url +:+ newline in
    result_bind (member result "published_date") (fun published_date =>
    let source :=
      if truthy published_date
      then source +:+ "   Published: " +:+ to_string published_date +:+ newline
      else source in
    result_bind (member result "content") (fun content =>
    inr (source +:+ "   Content: " +:+ to_string content +:+ newline))))))) (fun sources =>
  inr (formattedText +:+ join newline sources))))).

(** The body of the one request, from the destructured arguments. *)
Definition request_body (arguments : JsValue) : JsValue :=
  JSON_stringify (JObj [
    ("query", opt_get arguments "query");
    ("search_depth", or_default (JStr "basic") (opt_get arguments "search_depth"));
    ("include_answer", or_default (JBool true) (opt_get arguments "include_answer"));
    ("include_domains",
     or_default defaultIncludeDomains (opt_get arguments "include_domains"));
    ("exclude_domains",
     or_default defaultExcludeDomains (opt_get arguments "exclude_domains"))]).

(** The [catch] of the handler; everything thrown here is an [Error]. *)
Definition search_error `{Host} (error : JsError) : ToolResult :=
  {| content := [{| type := "text";
                    text := JStr ("Error performing search: " +:+
                                  error_message error) |}];
     isError := Some true |}.

(** The handler of [CallToolRequestSchema].  Destructuring [undefined] or
    [null] arguments throws before the [try] is entered. *)
Definition call_tool `{Host} (tool_name : string) (arguments : JsValue) : M ToolResult :=
  if negb (String.eqb tool_name "tavily_search")
  then throw (McpError MethodNotFound ("Unknown tool: " +:+ tool_name))
  else
    match arguments with
    | JUndefined | JNull => throw (TypeError (ReadOfNullish arguments "query"))
    | _ =>
        try_catch
          (response ← fetch (request_body arguments);
           if negb (ok response)
           then throw (PlatformError ("Tavily API error: " +:+ statusText response))
           else
             data ← response_json response;
             formatted ← lift (formatSearchResults data);
             mret (text_result (JStr formatted)))
          (fun error => mret (search_error error))
    end.

End Legacy.

(** ** Auxiliary notions for the statements *)

(** A response that the text and markdown formatters can render: it is
    not [null], its [results] are an array, and no result is [null]. *)
Definition nullish (v : JsValue) : bool :=
  match v with
  | JUndefined | JNull => true
  | _ => false
  end.

Definition renderable (data : JsValue) : bool :=
  negb (nullish data) &&
  match opt_get data "results" with
  | JArr xs => forallb (fun x => negb (nullish x)) xs
  | _ => false
  end.

(** The values on which the conversion to a string in a template literal
    returns: every value of a parsed reply except an object that has a
    property named [toString] of its own (it is not callable, so the
    conversion throws a TypeError), and an array with such an element.
    [to_string] gives ["[object Object]"] for every object, so it describes
    the source on these values only. *)
Fixpoint stringifiable (v : JsValue) : bool :=
  match v with
  | JArr xs =>
      (fix elements (l : list JsValue) : bool :=
         match l with
         | [] => true
         | x :: l' => stringifiable x && elements l'
         end) xs
  | JObj props => negb (existsb (fun p => String.eqb p.1 "toString") props)
  | _ => true
  end.

(** The values that the text and markdown formatters put into their
    template literals are all of that kind. *)
Definition interpolations_stringifiable (data : JsValue) : bool :=
  stringifiable (opt_get data "query") &&
  stringifiable (opt_get data "answer") &&
  match opt_get data "results" with
  | JArr xs =>
      forallb (fun x => stringifiable (opt_get x "title") &&
                        stringifiable (opt_get x "url") &&
                        stringifiable (opt_get x "published_date") &&
                        stringifiable (opt_get x "content")) xs
  | _ => true
  end.



(** The properties of the arguments that each handler reads. *)
Definition search_keys : list string :=
  ["query"; "search_depth"; "topic"; "days"; "time_range"; "max_results";
   "include_images"; "include_image_descriptions"; "include_answer";
   "include_raw_content"; "include_domains"; "exclude_domains"].

Definition context_keys : list string :=
  ["query"; "max_tokens"; "search_depth"; "topic"; "days"; "time_range";
   "max_results"; "include_domains"; "exclude_domains"].

Definition qna_keys : list string :=
  ["query"; "search_depth"; "topic"; "days"; "time_range"; "max_results";
   "include_domains"; "exclude_domains"].

(** Reading a quoted string back: the code units up to the closing quote,
    and what follows it. *)
Definition hex_value (c : ascii) : option N :=
  let n := N_of_ascii c in
  if decide (48 <= n <= 57)%N then Some (n - 48)%N
  else if decide (97 <= n <= 102)%N then Some (n - 87)%N
  else None.

Definition escaped (c : ascii) : option ascii :=
  let n := N_of_ascii c in
  if decide (n = 34)%N then Some c
  else if decide (n = 92)%N then Some c
  else if decide (n = 98)%N then Some (ascii_of_N 8)
  else if decide (n = 116)%N then Some (ascii_of_N 9)
  else if decide (n = 110)%N then Some (ascii_of_N 10)
  else if decide (n = 102)%N then Some (ascii_of_N 12)
  else if decide (n = 114)%N then Some (ascii_of_N 13)
  else None.

Definition prepend (c : ascii) (r : option (string * string)) : option (string * string) :=
  match r with
  | Some (decoded, rest) => Some (String c decoded, rest)
  | None => None
  end.

Fixpoint unquote_body (s : string) : option (string * string) :=
  match s with
  | EmptyString => None
  | String c s1 =>
      if decide (N_of_ascii c = 34)%N then Some (EmptyString, s1)
      else if decide (N_of_ascii c = 92)%N then
        match s1 with
        | EmptyString => None
        | String e s2 =>
            match escaped e with
            | Some d => prepend d (unquote_body s2)
            | None =>
                match s2 with
                | String _ (String _ (String h (String l s6))) =>
                    match hex_value h, hex_value l with
                    | Some hi, Some lo =>
                        prepend (ascii_of_N (16 * hi + lo)) (unquote_body s6)
                    | _, _ => None
                    end
                | _ => None
                end
            end
        end
      else prepend c (unquote_body s1)
  end.

Definition is_string (v : JsValue) : Prop := ∃ s, v = JStr s.
Definition is_boolean (v : JsValue) : Prop := ∃ b, v = JBool b.

(** Key fields of the types that [TavilySearchParams] declares. *)
Definition key_fields_typed (p : TavilySearchParams) : Prop :=
  is_string (query p) ∧ is_string (search_depth p) ∧ is_string (topic p) ∧
  is_boolean (include_answer p) ∧ is_boolean (include_images p) ∧
  is_boolean (include_raw_content p).

(** What a call can do to the log of requests, the network and the
    clock. *)
Definition quiet (w w' : World) : Prop :=
  sent w' = sent w ∧ network w' = network w ∧ now w' = now w.

Definition one_request (w w' : World) : Prop :=
  ∃ request_body, sent w' = sent w ++ [request_body] ∧ network w' = tail (network w).

(** A read of the cache that does not yield a usable entry. *)
Definition misses (w : World) (key : string) : Prop :=
  truthy (TavilyCache.get (cache w) key (now w)).1 = false.

(** A formatter call that returns rather than throws. *)
Definition succeeds {A} (r : Result A) : Prop := ∃ a, r = inr a.

(** The cache key of typed key fields, written out. *)
Definition key_text (q d t : string) (a i r : bool) : string :=
  "{" +:+ dquote +:+ "query" +:+ dquote +:+ ":" +:+ dquote +:+
  (quote_body q +:+ dquote +:+
   ("," +:+ dquote +:+ "search_depth" +:+ dquote +:+ ":" +:+ dquote +:+
    (quote_body d +:+ dquote +:+
     ("," +:+ dquote +:+ "topic" +:+ dquote +:+ ":" +:+ dquote +:+
      (quote_body t +:+ dquote +:+
       ("," +:+ dquote +:+ "include_answer" +:+ dquote +:+ ":" +:+
        (if a then "true" else "false") +:+
        "," +:+ dquote +:+ "include_images" +:+ dquote +:+ ":" +:+
        (if i then "true" else "false") +:+
        "," +:+ dquote +:+ "include_raw_content" +:+ dquote +:+ ":" +:+
        (if r then "true" else "false") +:+ "}")))))).

(** ** The registry *)

(** C5 (defect in [tools.ts]).  The list operation returns the three
    descriptors in the order tavily_search, tavily_get_search_context,
    tavily_qna_search; but the schema of the search tool enumerates ten
    fields, not the fifteen documented ones: topic, days, time_range,
    include_images, include_image_descriptions and include_raw_content are
    missing and min_score, which no handler reads, is listed.  The schemas
    of the other two tools list three fields each. *)
Theorem registry_lists_three_tools_with_short_schemas :
  (name <$> list_tools) =
    ["tavily_search"; "tavily_get_search_context"; "tavily_qna_search"] ∧
  (schema_fields <$> list_tools) =
    [ ["query"; "search_depth"; "include_answer"; "include_domains";
       "exclude_domains"; "response_format"; "max_results"; "min_score";
       "cache_ttl"; "force_refresh"];
      ["query"; "max_tokens"; "response_format"];
      ["query"; "include_sources"; "response_format"] ] ∧
  (∃ t, find_tool "tavily_search" = Some t ∧
        schema_fields t ≠ documented_search_fields ∧
        list_difference documented_search_fields (schema_fields t) =
          ["topic"; "days"; "time_range"; "include_images";
           "include_image_descriptions"; "include_raw_content"] ∧
        list_difference (schema_fields t) documented_search_fields =
          ["min_score"]).
Proof.
  split; [reflexivity|]. split; [reflexivity|].
  eexists. split; [reflexivity|].
  split; [vm_compute; discriminate|].
  split; vm_compute; reflexivity.
Qed.

(** ** Defaults *)

Lemma or_default_undefined d : or_default d JUndefined = d.
Proof. reflexivity. Qed.

Lemma destructure_search_absent (args : TavilySearchParams) :
  (search_depth args = JUndefined → search_depth (destructure_search args) = JStr "basic") ∧
  (max_results args = JUndefined → max_results (destructure_search args) = JInt 5) ∧
  (include_answer args = JUndefined → include_answer (destructure_search args) = JBool false) ∧
  (include_images args = JUndefined → include_images (destructure_search args) = JBool false) ∧
  (include_raw_content args = JUndefined →
     include_raw_content (destructure_search args) = JBool false).
Proof. repeat split; intros E; simpl; by rewrite E. Qed.

(** C4 (defect: the handler and the schema of [tools.ts] disagree).  With
    only a query given, the search handler works with search_depth basic,
    max_results 5 and include_answer, include_images, include_raw_content
    false, and sends these to the backend; the context and QnA handlers
    work with search_depth advanced.  The registry schema of the search
    tool declares max_results 10 and include_answer true instead, declares
    nothing for include_images and include_raw_content, and the schemas of
    the other two tools declare no search_depth at all. *)
Theorem handler_defaults_differ_from_schema `{Host} :
  let raw := JObj [("query", JStr "x")] in
  let p := destructure_search (search_args raw) in
  (search_depth p = JStr "basic" ∧ max_results p = JInt 5 ∧
   include_answer p = JBool false ∧ include_images p = JBool false ∧
   include_raw_content p = JBool false) ∧
  sent (call_tool "tavily_search" raw (start [http_ok 1 rust_data])).2 =
    [JSON_stringify (JObj [
       ("query", JStr "x"); ("search_depth", JStr "basic");
       ("topic", JStr "general"); ("max_results", JInt 5);
       ("include_images", JBool false);
       ("include_image_descriptions", JBool false);
       ("include_answer", JBool false); ("include_raw_content", JBool false);
       ("include_domains", JArr []); ("exclude_domains", JArr [])])] ∧
  ctx_search_depth (destructure_context (context_args raw)) = JStr "advanced" ∧
  qna_search_depth (destructure_qna (qna_args raw)) = JStr "advanced" ∧
  ((λ t, schema_default t <$>
           ["search_depth"; "max_results"; "include_answer"; "include_images";
            "include_raw_content"]) <$> find_tool "tavily_search")
   = Some [JStr "basic"; JInt 10; JBool true; JUndefined; JUndefined] ∧
  (flip schema_default "search_depth" <$> find_tool "tavily_get_search_context")
   = Some JUndefined ∧
  (flip schema_default "search_depth" <$> find_tool "tavily_qna_search")
   = Some JUndefined.
Proof. repeat split; vm_compute; reflexivity. Qed.

(** ** The cache *)

Lemma cache_get_absent (c : gmap string CacheEntry) k t :
  c !! k = None → TavilyCache.get c k t = (JNull, c).
Proof. intros E. unfold TavilyCache.get. by rewrite E. Qed.

Lemma cache_get_live (c : gmap string CacheEntry) k t e :
  c !! k = Some e → t - timestamp e <= ttl e * 1000 →
  TavilyCache.get c k t = (data e, c).
Proof.
  intros E Hlive. unfold TavilyCache.get. rewrite E.
  destruct (decide _) as [Hexp|_]; [lia|reflexivity].
Qed.

Lemma cache_get_expired (c : gmap string CacheEntry) k t e :
  c !! k = Some e → t - timestamp e > ttl e * 1000 →
  TavilyCache.get c k t = (JNull, delete k c).
Proof.
  intros E Hexp. unfold TavilyCache.get. rewrite E.
  destruct (decide _) as [_|Hlive]; [reflexivity|lia].
Qed.

Lemma cache_set_lookup (c : gmap string CacheEntry) k v s t :
  TavilyCache.set c k v s t !! k = Some {| data := v; timestamp := t; ttl := s |}.
Proof. unfold TavilyCache.set. apply lookup_insert_eq. Qed.

(** C7.  With clock readings in milliseconds and the TTL in seconds: a read
    never returns an entry whose age exceeds its TTL, it removes that entry
    and returns null instead; after [set k v ttl] at time [t0], a read of
    [k] at time [t1] returns [v] and leaves the cache as it is while
    [t1 - t0] is within the TTL, and returns null and deletes the entry
    once [t1 - t0] is beyond it. *)
Theorem cache_entry_lives_for_its_ttl
    (c : gmap string CacheEntry) (k : string) (v : JsValue) (ttl_s t0 t1 : Z) :
  (∀ e, c !! k = Some e → t1 - timestamp e > ttl e * 1000 →
        TavilyCache.get c k t1 = (JNull, delete k c) ∧ delete k c !! k = None) ∧
  (∀ u c', TavilyCache.get c k t1 = (u, c') → u ≠ JNull →
        ∃ e, c !! k = Some e ∧ u = data e ∧ t1 - timestamp e <= ttl e * 1000 ∧ c' = c) ∧
  let c1 := TavilyCache.set c k v ttl_s t0 in
  (t1 - t0 <= ttl_s * 1000 → TavilyCache.get c1 k t1 = (v, c1)) ∧
  (t1 - t0 > ttl_s * 1000 →
     TavilyCache.get c1 k t1 = (JNull, delete k c1) ∧ delete k c1 !! k = None).
Proof.
  split; [|split; [|split]].
  - intros e E Hexp. split; [by eapply cache_get_expired|apply lookup_delete_eq].
  - intros u c' Hget Hu. unfold TavilyCache.get in Hget.
    destruct (c !! k) as [e|] eqn:E; [|by simplify_eq].
    destruct (decide _) as [Hexp|Hlive]; [by simplify_eq|].
    simplify_eq. exists e. split; [done|]. split; [done|]. split; [lia|done].
  - intros Hlive. by apply (cache_get_live _ _ _ _ (cache_set_lookup c k v ttl_s t0)).
  - intros Hexp. split; [|apply lookup_delete_eq].
    by apply (cache_get_expired _ _ _ _ (cache_set_lookup c k v ttl_s t0)).
Qed.

Lemma cache_entry_lives_for_its_ttl_witness :
  let c : gmap string CacheEntry := ∅ in
  let c1 := TavilyCache.set c "k" (JStr "v") 60 1000 in
  TavilyCache.get c1 "k" 61000 = (JStr "v", c1) ∧
  TavilyCache.get c1 "k" 61001 = (JNull, delete "k" c1) ∧
  TavilyCache.get (delete "k" c1) "k" 61001 = (JNull, delete "k" c1).
Proof.
  intros c c1.
  pose proof (cache_entry_lives_for_its_ttl c "k" (JStr "v") 60 1000 61000)
    as (_ & _ & Hin & _).
  pose proof (cache_entry_lives_for_its_ttl c "k" (JStr "v") 60 1000 61001)
    as (_ & _ & _ & Hout).
  split; [apply Hin; lia|].
  assert (61001 - 1000 > 60 * 1000) as Hlate by lia.
  destruct (Hout Hlate) as [Hget Hgone].
  split; [exact Hget|].
  apply cache_get_absent, Hgone.
Defined.

(** ** The search handler *)

Lemma call_tool_search `{Host} raw :
  call_tool "tavily_search" raw =
  try_catch (if query_rejected raw then throw query_required
             else handle_search (search_args raw))
            (fun error => mret (error_result error)).
Proof. reflexivity. Qed.

Lemma handle_search_hit `{Host} args w e :
  cache w !! cache_key (destructure_search args) = Some e →
  now w - timestamp e <= ttl e * 1000 →
  truthy (data e) = true →
  handle_search args w = (inr (text_result (JSON_stringify_2 (data e))), w).
Proof.
  intros E Hlive Ht. unfold handle_search.
  unfold mbind, M_bind, bind, cache_get.
  rewrite (cache_get_live _ _ _ _ E Hlive). rewrite Ht.
  destruct w; reflexivity.
Qed.

Ltac run_fetch w :=
  unfold Date_now, fetch, response_json, cache_set, throw; simpl;
  destruct (network w) as [|[lat msg|lat resp] rest]; simpl; try discriminate;
  destruct (ok resp); simpl; [|discriminate];
  destruct (body resp) as [msg|json]; simpl; [discriminate|].

(** A search that succeeds leaves a live entry under its key, and its
    result is the JSON text of that entry; either nothing else happened
    (a hit) or the entry was stored just now with a TTL of 3600. *)
Lemma handle_search_success `{Host} args w r w' :
  handle_search args w = (inr r, w') →
  ∃ e, cache w' !! cache_key (destructure_search args) = Some e ∧
       truthy (data e) = true ∧
       r = text_result (JSON_stringify_2 (data e)) ∧
       (w' = w ∧ now w - timestamp e <= ttl e * 1000 ∨
        timestamp e = now w' ∧ ttl e = 3600 ∧ ∃ props, data e = JObj props).
Proof.
  unfold handle_search, mbind, M_bind, bind, cache_get, TavilyCache.get.
  set (key := cache_key _).
  destruct (cache w !! key) as [e|] eqn:E;
    [destruct (decide _) as [Hexp|Hlive]; [|destruct (truthy (data e)) eqn:Ht]|].
  2: { intros [= <- <-]. simpl. exists e. split; [done|]. split; [done|].
       split; [done|]. left. split; [by destruct w|lia]. }
  all: simpl; run_fetch w; intros [= <- <-]; simpl;
    eexists; (split; [apply cache_set_lookup|]); simpl;
    (split; [done|]); (split; [done|]); right; eauto.
Qed.

Lemma stringify_2_object_starts_with_brace props :
  is_prefix_of "{" (JSON_stringify_2 (JObj props)) = true.
Proof.
  unfold JSON_stringify_2. simpl.
  match goal with |- context [match ?l with [] => _ | _ :: _ => _ end] =>
    destruct l end; reflexivity.
Qed.

(** Whenever a search goes to the backend and succeeds, the text it
    returns is the serialization of an object: it starts with a brace. *)
Lemma fetched_search_result_is_json `{Host} args w r w' :
  handle_search args w = (inr r, w') → w' ≠ w →
  ∃ props, r = text_result (JSON_stringify_2 (JObj props)) ∧
           is_prefix_of "{" (JSON_stringify_2 (JObj props)) = true ∧
           is_prefix_of "Search Results for" (JSON_stringify_2 (JObj props)) = false.
Proof.
  intros Hrun Hfetched.
  apply handle_search_success in Hrun as (e & _ & _ & -> & [[-> _]|(_ & _ & props & ->)]);
    [done|].
  exists props. split; [done|].
  pose proof (stringify_2_object_starts_with_brace props) as Hbrace.
  split; [done|].
  destruct (JSON_stringify_2 (JObj props)) as [| | | |str| |]; try done.
  destruct str as [|c str]; [done|].
  cbn [is_prefix_of starts_with] in *.
  destruct (Ascii.eqb_spec "{"%char c) as [<-|]; [reflexivity|discriminate].
Qed.

Lemma call_tool_search_success `{Host} raw w r w' :
  call_tool "tavily_search" raw w = (inr r, w') → isError r = None →
  query_rejected raw = false ∧ handle_search (search_args raw) w = (inr r, w').
Proof.
  rewrite call_tool_search. unfold try_catch.
  destruct (query_rejected raw).
  - simpl. intros [= <- <-]. discriminate.
  - destruct (handle_search (search_args raw) w) as [[e|r0] w0] eqn:E.
    + simpl. intros [= <- <-]. discriminate.
    + intros [= <- <-]. done.
Qed.

Lemma query_rejected_same raw1 raw2 :
  opt_get raw1 "query" = opt_get raw2 "query" →
  query_rejected raw1 = query_rejected raw2.
Proof. unfold query_rejected. by intros ->. Qed.

Lemma cache_key_same raw1 raw2 :
  Forall (λ k, opt_get raw1 k = opt_get raw2 k) cache_key_fields →
  cache_key (destructure_search (search_args raw1)) =
  cache_key (destructure_search (search_args raw2)).
Proof.
  unfold cache_key_fields. rewrite !Forall_cons.
  intros (Eq & Ed & Et & Ea & Ei & Er & _).
  unfold cache_key, destructure_search, search_args. simpl.
  by rewrite Eq, Ed, Et, Ea, Ei, Er.
Qed.

(** C6.  Two tavily_search calls whose arguments agree on query,
    search_depth, topic, include_answer, include_images and
    include_raw_content derive the same cache key, whatever else they carry
    (max_results, include_domains, exclude_domains, response_format, ...).
    So when the first call succeeded, the second one, made while the entry
    of the first is within its TTL, returns the same result and leaves the
    world as it is: no request is sent to the backend.  When the first call
    itself went to the backend, that is any time up to 3600 seconds after
    it completed. *)
Theorem same_key_fields_share_cache_entry `{Host}
    (raw1 raw2 : JsValue) (w w1 : World) (r1 : ToolResult) :
  Forall (λ k, opt_get raw1 k = opt_get raw2 k) cache_key_fields →
  call_tool "tavily_search" raw1 w = (inr r1, w1) →
  isError r1 = None →
  let key := cache_key (destructure_search (search_args raw1)) in
  key = cache_key (destructure_search (search_args raw2)) ∧
  (∀ w2, cache w2 = cache w1 → live (cache w1) key (now w2) →
         call_tool "tavily_search" raw2 w2 = (inr r1, w2)) ∧
  (∀ ms, w1 ≠ w → ms <= 3600 * 1000 →
         call_tool "tavily_search" raw2 (elapse ms w1) = (inr r1, elapse ms w1)).
Proof.
  intros Hsame Hcall Hok key.
  pose proof (cache_key_same _ _ Hsame) as Hkey. fold key in Hkey.
  apply call_tool_search_success in Hcall as [Hq Hrun]; [|done].
  apply handle_search_success in Hrun as (e & He & Ht & -> & Hage). fold key in He.
  assert (∀ w2, cache w2 = cache w1 → now w2 - timestamp e <= ttl e * 1000 →
            call_tool "tavily_search" raw2 w2 =
            (inr (text_result (JSON_stringify_2 (data e))), w2)) as Hhit.
  { intros w2 Hc Hlive. rewrite call_tool_search. unfold try_catch.
    rewrite <- (query_rejected_same raw1 raw2), Hq
      by (unfold cache_key_fields in Hsame; by apply Forall_cons in Hsame as [? _]).
    rewrite (handle_search_hit (search_args raw2) w2 e); [done| |done|done].
    by rewrite <- Hkey, Hc. }
  split; [done|]. split.
  - intros w2 Hc Hlive. apply Hhit; [done|].
    unfold live in Hlive. by rewrite He in Hlive.
  - intros ms Hfetched Hms. apply Hhit; [done|]. simpl.
    destruct Hage as [[-> _]|(-> & -> & _)]; [done|lia].
Qed.

Lemma same_key_fields_share_cache_entry_witness :
  let raw1 := JObj [("query", JStr "rust ownership"); ("max_results", JInt 3)] in
  let raw2 := JObj [("query", JStr "rust ownership"); ("max_results", JInt 10);
                    ("response_format", JStr "markdown");
                    ("include_domains", JArr [JStr "rust-lang.org"])] in
  ∃ r1 w1,
    first_search (H := node_host) raw1 = (inr r1, w1) ∧
    sent w1 = [search_body (destructure_search (search_args raw1))] ∧
    call_tool (H := node_host) "tavily_search" raw2 (elapse 3600000 w1) =
      (inr r1, elapse 3600000 w1).
Proof.
  intros raw1 raw2.
  destruct (first_search (H := node_host) raw1) as [[e|r1] w1] eqn:E;
    [vm_compute in E; discriminate|].
  exists r1, w1. split; [reflexivity|].
  assert (isError r1 = None ∧
          sent w1 = [search_body (destructure_search (search_args raw1))])
    as [Hok Hsent].
  { vm_compute in E. injection E as <- <-. split; vm_compute; reflexivity. }
  split; [exact Hsent|].
  pose proof (same_key_fields_share_cache_entry (H := node_host)
                raw1 raw2 (start two_replies) w1 r1) as Hshare.
  destruct Hshare as (_ & _ & Hlater); [repeat constructor|exact E|exact Hok|].
  apply Hlater; [|lia].
  intros Heq. apply (f_equal sent) in Heq. rewrite Hsent in Heq. discriminate.
Defined.

(** C1 (defect in [handle_search]).  A response_format argument changes
    nothing in a tavily_search call, and when it is absent the returned
    text is not the text rendering: in the scenario of the specification
    the text is the two-space JSON serialization of the response with its
    response time, which starts with an opening brace and not with the
    header line, while the text formatter applied to the same response
    would start with the header line followed by the summary. *)
Theorem search_returns_json_whatever_the_format `{Host} :
  (∀ props fmt w,
     call_tool "tavily_search" (JObj (("response_format", fmt) :: props)) w =
     call_tool "tavily_search" (JObj props) w) ∧
  let out := first_search rust_args in
  the_text out = JSON_stringify_2 rust_search_response ∧
  is_prefix_of "{" (the_text out) = true ∧
  is_prefix_of text_header (the_text out) = false ∧
  ∃ t, response_formatters.text rust_search_response = inr t ∧
       starts_with (text_header +:+ newline +:+ newline +:+
                    "Summary: Rust uses ownership to manage memory.") t = true.
Proof.
  split; [reflexivity|].
  split; [vm_compute; reflexivity|].
  split; [vm_compute; reflexivity|].
  split; [vm_compute; reflexivity|].
  eexists. split; vm_compute; reflexivity.
Qed.

(** C2 (defect in [handle_search]).  A force_refresh argument changes
    nothing in a tavily_search call.  In particular a call with
    force_refresh = true, made one second after a call with the same query
    has filled the cache, reads the cache: it sends no request to the
    backend, leaves the pending reply of the backend unconsumed, returns
    the cached response and leaves the cache as it is. *)
Theorem force_refresh_still_reads_the_cache `{Host} :
  (∀ props v w,
     call_tool "tavily_search" (JObj (("force_refresh", v) :: props)) w =
     call_tool "tavily_search" (JObj props) w) ∧
  let first := first_search rust_args in
  let again :=
    call_tool "tavily_search"
      (JObj [("query", JStr "rust ownership"); ("force_refresh", JBool true)])
      (elapse 1000 first.2) in
  List.length (sent first.2) = 1%nat ∧
  sent again.2 = sent first.2 ∧
  network again.2 = [http_ok 100 stale_data] ∧
  the_text again = JSON_stringify_2 rust_search_response ∧
  the_text again = the_text first ∧
  cache again.2 = cache first.2.
Proof.
  split; [reflexivity|].
  repeat split; vm_compute; reflexivity.
Qed.

(** C3 (defect in [handle_search]).  A cache_ttl argument changes nothing
    in a tavily_search call: the entry written after a call with
    cache_ttl = 60 carries a TTL of 3600 seconds, and the same call made 61
    seconds later is still answered from the cache, without a request to
    the backend and without a change to the stored entry. *)
Theorem cache_ttl_argument_is_not_used `{Host} :
  (∀ props v w,
     call_tool "tavily_search" (JObj (("cache_ttl", v) :: props)) w =
     call_tool "tavily_search" (JObj props) w) ∧
  let raw := JObj [("query", JStr "rust ownership"); ("cache_ttl", JInt 60)] in
  let first := first_search raw in
  let again := call_tool "tavily_search" raw (elapse 61000 first.2) in
  (ttl <$> cache first.2 !! rust_key) = Some 3600 ∧
  (timestamp <$> cache first.2 !! rust_key) = Some (now first.2) ∧
  sent again.2 = sent first.2 ∧
  the_text again = the_text first ∧
  cache again.2 = cache first.2.
Proof.
  split; [reflexivity|].
  repeat split; vm_compute; reflexivity.
Qed.

(** ** The dispatcher *)

Lemma query_rejected_falsy raw :
  truthy (opt_get raw "query") = false → query_rejected raw = true.
Proof. unfold query_rejected. by intros ->. Qed.

Lemma call_tool_rejects `{Host} tool raw w :
  tool ∈ tool_names → query_rejected raw = true →
  call_tool tool raw w = (inr (error_result query_required), w).
Proof.
  unfold tool_names. rewrite !elem_of_cons, elem_of_nil.
  intros [->|[->|[->|[]]]] Hrej; unfold call_tool, try_catch; simpl;
    by rewrite Hrej.
Qed.

(** C10.  For each of the three tools, a call whose query is the empty
    string is answered exactly like a call without a query: by the result
    made from the invalid-params error "Query parameter is required and
    must be a string", with the world, and so the list of requests sent to
    the backend, unchanged. *)
Theorem empty_query_is_rejected_like_a_missing_one `{Host}
    (tool : string) (raw raw' : JsValue) (w : World) :
  tool ∈ tool_names →
  opt_get raw "query" = JStr "" →
  opt_get raw' "query" = JUndefined →
  call_tool tool raw w = (inr (error_result query_required), w) ∧
  call_tool tool raw w = call_tool tool raw' w ∧
  sent (call_tool tool raw w).2 = sent w.
Proof.
  intros Htool Hempty Habsent.
  assert (call_tool tool raw w = (inr (error_result query_required), w)) as E.
  { apply call_tool_rejects; [done|]. apply query_rejected_falsy. by rewrite Hempty. }
  assert (call_tool tool raw' w = (inr (error_result query_required), w)) as E'.
  { apply call_tool_rejects; [done|]. apply query_rejected_falsy. by rewrite Habsent. }
  rewrite E, E'. done.
Qed.

Lemma empty_query_is_rejected_like_a_missing_one_witness :
  let raw := JObj [("query", JStr ""); ("max_results", JInt 3)] in
  let w := start two_replies in
  call_tool (H := node_host) "tavily_qna_search" raw w =
    (inr (error_result (H := node_host) query_required), w) ∧
  call_tool (H := node_host) "tavily_qna_search" raw w =
    call_tool (H := node_host) "tavily_qna_search" (JObj [("max_results", JInt 3)]) w ∧
  sent (call_tool (H := node_host) "tavily_qna_search" raw w).2 = [].
Proof.
  intros raw w.
  apply (empty_query_is_rejected_like_a_missing_one (H := node_host)
           "tavily_qna_search" raw (JObj [("max_results", JInt 3)]) w).
  - apply (bool_decide_unpack _). vm_compute. exact I.
  - reflexivity.
  - reflexivity.
Defined.

(** C9 (defect in the dispatcher).  A call of a registered tool never
    leaves the dispatcher as an error, whatever its arguments and whatever
    the network does: what is thrown inside is returned as a result with
    isError = true.  That includes the invalid-params error for a missing
    or non-string query, which is thrown inside the [try] block: it comes
    back as an isError result whose text is "Error: " followed by the
    message of the error, not as a protocol-level error; a failure of the
    backend comes back the same way.  Only an unknown tool name leaves the
    dispatcher as a method-not-found error. *)
Theorem invalid_params_is_returned_as_a_tool_result `{Host} (raw : JsValue) (w : World) :
  ((∃ r w', call_tool "tavily_search" raw w = (inr r, w')) ∧
   (∃ r w', call_tool "tavily_get_search_context" raw w = (inr r, w')) ∧
   (∃ r w', call_tool "tavily_qna_search" raw w = (inr r, w'))) ∧
  (let rejected :=
     {| content :=
          [{| type := "text";
              text := JStr ("Error: " +:+
                McpError_message InvalidParams
                  "Query parameter is required and must be a string") |}];
        isError := Some true |} in
   call_tool "tavily_search" JUndefined w = (inr rejected, w) ∧
   call_tool "tavily_search" (JObj []) w = (inr rejected, w) ∧
   call_tool "tavily_search" (JObj [("query", JInt 5)]) w = (inr rejected, w) ∧
   call_tool "tavily_get_search_context" (JObj []) w = (inr rejected, w) ∧
   call_tool "tavily_qna_search" (JObj []) w = (inr rejected, w)) ∧
  (call_tool "tavily_search" rust_args (start [http_500])).1 =
    inr {| content :=
             [{| type := "text";
                 text := JStr "Tavily API Error (API_ERROR): API request failed: Internal Server Error" |}];
           isError := Some true |} ∧
  call_tool "no_such_tool" raw w =
    (inl (McpError MethodNotFound "Unknown tool: no_such_tool"), w).
Proof.
  split; [|split; [repeat split|split; [vm_compute|]; reflexivity]].
  repeat split; unfold call_tool, try_catch; simpl;
    match goal with
    | |- ∃ _ _, match ?m w with _ => _ end = _ =>
        destruct (m w) as [[e|r] w']; simpl; eauto
    end.
Qed.

(** ** The context handler *)





Lemma map_contents results contents i :
  Forall2 (λ r c, opt_get r "content" = JStr c) results contents →
  map_indexed (λ result (_ : nat), member result "content") i results =
  inr (JStr <$> contents).
Proof.
  intros Hall. revert i.
  induction Hall as [|r c results contents Hr _ IH]; intros i; simpl; [done|].
  rewrite IH. unfold member.
  destruct r; simpl in *; try discriminate. by rewrite Hr.
Qed.

Lemma join_element_strings (contents : list string) : join_element <$> (JStr <$> contents) = contents.
Proof. induction contents as [|c l IH]; simpl; [done|]. by f_equal. Qed.

Lemma slice_negative `{Host} s m :
  m < 0 →
  slice_from_0 s (JNum m 0) = str_take (String.length s - Z.to_nat (- m)) s.
Proof.
  intros Hm. unfold slice_from_0. simpl. rewrite Z.quot_1_r.
  destruct (decide _) as [_|Hpos]; [|lia]. f_equal. lia.
Qed.









(** ** More on the cache *)

(** X1.  Reading a key twice at the same time gives the same answer and the
    same cache as reading it once, and a read never adds to the cache: what
    it leaves is a sub-map of what it found. *)
Theorem cache_get_is_idempotent (c : gmap string CacheEntry) (k : string) (t : Z) :
  TavilyCache.get (TavilyCache.get c k t).2 k t = TavilyCache.get c k t ∧
  (TavilyCache.get c k t).2 ⊆ c.
Proof.
  unfold TavilyCache.get at 2 4.
  destruct (c !! k) as [e|] eqn:E; [destruct (decide _) as [Hexp|Hlive]|]; simpl.
  - split; [|apply delete_subseteq].
    rewrite cache_get_absent by apply lookup_delete_eq.
    by rewrite (cache_get_expired c k t e).
  - split; [|done]. by rewrite !(cache_get_live c k t e) by (done || lia).
  - split; [|done]. by rewrite !cache_get_absent.
Qed.

(** X2.  Entries under different keys do not interfere: writing [k] does
    not change what a read of another key [k'] returns, and a read of [k],
    also one that evicts an expired entry, leaves the entry of [k'] as it
    is. *)
Theorem cache_keys_are_independent
    (c : gmap string CacheEntry) (k k' : string) (v : JsValue) (s t0 t : Z) :
  k ≠ k' →
  (TavilyCache.get (TavilyCache.set c k v s t0) k' t).1 = (TavilyCache.get c k' t).1 ∧
  (TavilyCache.get c k t).2 !! k' = c !! k' ∧
  TavilyCache.set c k v s t0 !! k' = c !! k'.
Proof.
  intros Hne. split; [|split].
  - unfold TavilyCache.get, TavilyCache.set. rewrite lookup_insert_ne by done.
    destruct (c !! k') as [e|]; [|done]. by destruct (decide _).
  - unfold TavilyCache.get. destruct (c !! k) as [e|]; [|done].
    destruct (decide _); [|done]. simpl. by rewrite lookup_delete_ne.
  - unfold TavilyCache.set. by rewrite lookup_insert_ne.
Qed.

Lemma cache_keys_are_independent_witness :
  let c := TavilyCache.set ∅ "a" (JStr "A") 60 1000 in
  (TavilyCache.get (TavilyCache.set c "b" (JStr "B") 1 2000) "a" 50000).1 = JStr "A" ∧
  (TavilyCache.get c "b" 50000).2 !! "a" = c !! "a".
Proof.
  intros c.
  assert ("b" ≠ "a") as Hne by discriminate.
  pose proof (cache_keys_are_independent c "b" "a" (JStr "B") 1 2000 50000 Hne)
    as (Hread & Hkeep & _).
  split; [rewrite Hread; reflexivity|exact Hkeep].
Defined.

(** ** More on the dispatcher *)

Lemma find_tool_registered tool :
  ((tool ∈ tool_names) ∧ ∃ t, find_tool tool = Some t) ∨
  ((tool ∉ tool_names) ∧ find_tool tool = None).
Proof.
  unfold find_tool, tool_names, TAVILY_TOOLS, List.find. cbn [name].
  destruct (String.eqb_spec "tavily_search" tool) as [<-|N1];
    [left; split; [apply (bool_decide_unpack _); vm_compute; exact I|eauto]|].
  destruct (String.eqb_spec "tavily_get_search_context" tool) as [<-|N2];
    [left; split; [apply (bool_decide_unpack _); vm_compute; exact I|eauto]|].
  destruct (String.eqb_spec "tavily_qna_search" tool) as [<-|N3];
    [left; split; [apply (bool_decide_unpack _); vm_compute; exact I|eauto]|].
  right. split; [|done].
  rewrite !elem_of_cons, elem_of_nil. intros [E|[E|[E|[]]]]; symmetry in E; done.
Qed.

Lemma registered_tool_returns `{Host} name raw w :
  name ∈ tool_names → ∃ r w', call_tool name raw w = (inr r, w').
Proof.
  unfold tool_names. rewrite !elem_of_cons, elem_of_nil.
  intros [->|[->|[->|[]]]]; unfold call_tool, try_catch; simpl;
    match goal with
    | |- ∃ _ _, match ?m w with _ => _ end = _ =>
        destruct (m w) as [[e|r] w']; simpl; eauto
    end.
Qed.

(** X3.  A tool call leaves the dispatcher as a thrown error exactly when
    the tool name is not one of the three registered names; the error is
    then the method-not-found error "Unknown tool: <name>" and the world is
    unchanged. *)
Theorem dispatcher_throws_exactly_for_unknown_tools `{Host}
    (name : string) (raw : JsValue) (w : World) :
  ((∃ e w', call_tool name raw w = (inl e, w')) ↔ name ∉ tool_names) ∧
  (name ∉ tool_names →
     call_tool name raw w =
       (inl (McpError MethodNotFound ("Unknown tool: " +:+ name)), w)).
Proof.
  assert (name ∉ tool_names →
          call_tool name raw w =
            (inl (McpError MethodNotFound ("Unknown tool: " +:+ name)), w)) as Hunknown.
  { intros Hn. destruct (find_tool_registered name) as [[Hin _]|[_ Hnone]]; [done|].
    unfold call_tool. by rewrite Hnone. }
  split; [|done]. split.
  - intros (e & w' & Hthrow) Hin.
    destruct (registered_tool_returns name raw w Hin) as (r & w'' & Hret). congruence.
  - intros Hn. rewrite (Hunknown Hn). eauto.
Qed.

Lemma dispatcher_throws_exactly_for_unknown_tools_witness :
  call_tool (H := node_host) "tavily_extract" (JObj [("query", JStr "q")]) (start []) =
    (inl (McpError MethodNotFound "Unknown tool: tavily_extract"), start []).
Proof.
  apply (dispatcher_throws_exactly_for_unknown_tools (H := node_host)).
  apply (bool_decide_unpack _). vm_compute. exact I.
Defined.

(** X4.  The guard of the dispatcher lets a request through exactly when
    its query property is a string that is not empty; arguments that are
    not an object (absent, null, an array, a string, a number) are always
    rejected. *)
Theorem query_is_accepted_iff_nonempty_string (raw : JsValue) :
  (query_rejected raw = false ↔ ∃ s, opt_get raw "query" = JStr s ∧ s ≠ "") ∧
  ((∀ props, raw ≠ JObj props) → query_rejected raw = true).
Proof.
  split.
  - unfold query_rejected. split.
    + intros Hacc. destruct (opt_get raw "query") as [| |b|m e|s|xs|props]; simpl in Hacc;
        try discriminate; [by destruct b|by destruct (m =? 0)|].
      eexists. split; [reflexivity|]. intros ->. discriminate.
    + intros (s & -> & Hs). simpl.
      destruct (String.eqb_spec s ""); [done|reflexivity].
  - intros Hno. destruct raw; try reflexivity. by destruct (Hno props).
Qed.

Lemma query_is_accepted_iff_nonempty_string_witness :
  query_rejected (JObj [("query", JStr "rust")]) = false ∧
  query_rejected (JArr [JStr "rust"]) = true.
Proof.
  split.
  - apply (query_is_accepted_iff_nonempty_string (JObj [("query", JStr "rust")])).
    exists "rust". split; [reflexivity|discriminate].
  - apply (query_is_accepted_iff_nonempty_string (JArr [JStr "rust"])).
    intros props. discriminate.
Defined.

Lemma Forall_agree_cons raw1 raw2 k ks :
  Forall (λ k, opt_get raw1 k = opt_get raw2 k) (k :: ks) →
  opt_get raw1 k = opt_get raw2 k ∧ Forall (λ k, opt_get raw1 k = opt_get raw2 k) ks.
Proof. by inversion 1. Qed.

Ltac use_agreement raw1 :=
  repeat match goal with
         | E : opt_get raw1 _ = _ |- _ => rewrite E; clear E
         end.

(** X5.  The outcome of a call depends on the arguments only through the
    properties copied into [args]: twelve for tavily_search, nine for
    tavily_get_search_context, eight for tavily_qna_search.  Two argument
    objects that agree on them give the same result and the same world,
    whatever other properties they carry. *)
Theorem only_the_declared_arguments_are_read `{Host} (raw1 raw2 : JsValue) (w : World) :
  (Forall (λ k, opt_get raw1 k = opt_get raw2 k) search_keys →
   call_tool "tavily_search" raw1 w = call_tool "tavily_search" raw2 w) ∧
  (Forall (λ k, opt_get raw1 k = opt_get raw2 k) context_keys →
   call_tool "tavily_get_search_context" raw1 w =
   call_tool "tavily_get_search_context" raw2 w) ∧
  (Forall (λ k, opt_get raw1 k = opt_get raw2 k) qna_keys →
   call_tool "tavily_qna_search" raw1 w = call_tool "tavily_qna_search" raw2 w).
Proof.
  split; [|split]; intros Hsame.
  - unfold search_keys in Hsame.
    repeat (apply Forall_agree_cons in Hsame as [? Hsame]).
    unfold call_tool, try_catch; simpl.
    rewrite (query_rejected_same raw1 raw2) by done.
    unfold search_args. by use_agreement raw1.
  - unfold context_keys in Hsame.
    repeat (apply Forall_agree_cons in Hsame as [? Hsame]).
    unfold call_tool, try_catch; simpl.
    rewrite (query_rejected_same raw1 raw2) by done.
    unfold context_args. by use_agreement raw1.
  - unfold qna_keys in Hsame.
    repeat (apply Forall_agree_cons in Hsame as [? Hsame]).
    unfold call_tool, try_catch; simpl.
    rewrite (query_rejected_same raw1 raw2) by done.
    unfold qna_args. by use_agreement raw1.
Qed.

Lemma only_the_declared_arguments_are_read_witness :
  let raw1 := JObj [("query", JStr "rust"); ("min_score", JNum 5 1);
                    ("include_sources", JBool true)] in
  let raw2 := JObj [("query", JStr "rust")] in
  call_tool (H := node_host) "tavily_qna_search" raw1 (start two_replies) =
  call_tool (H := node_host) "tavily_qna_search" raw2 (start two_replies).
Proof.
  intros raw1 raw2.
  apply (only_the_declared_arguments_are_read (H := node_host) raw1 raw2).
  repeat constructor.
Defined.

(** ** More on the handlers *)

Ltac run_handler w :=
  unfold mbind, M_bind, bind, mret, M_ret, ret, lift, throw, fetch, response_json,
         Date_now, cache_set; simpl;
  destruct (network w) as [|[lat msg|lat resp] rest]; simpl;
    [| |destruct (ok resp); simpl; [destruct (body resp) as [msg|json]; simpl|]].

Lemma handle_context_requests `{Host} args w :
  one_request w (handle_context args w).2 ∧ cache (handle_context args w).2 = cache w.
Proof.
  unfold handle_context, one_request. run_handler w; eauto.
  destruct (member json "results") as [e|results]; simpl; eauto.
  destruct (array_map results _) as [e|contents]; simpl; eauto.
Qed.

Lemma handle_qna_requests `{Host} args w :
  one_request w (handle_qna args w).2 ∧ cache (handle_qna args w).2 = cache w.
Proof.
  unfold handle_qna, one_request. run_handler w; eauto.
  destruct (member json "answer") as [e|answer]; simpl; eauto.
Qed.

Lemma handle_search_requests `{Host} args w :
  quiet w (handle_search args w).2 ∨ one_request w (handle_search args w).2.
Proof.
  unfold handle_search, quiet, one_request.
  unfold mbind, M_bind, bind, cache_get.
  destruct (TavilyCache.get _ _ _) as [v c]. simpl.
  destruct (truthy v); simpl; [by left|right].
  run_handler w; eauto.
Qed.

Lemma try_catch_world {A} (m : M A) (handler : JsError → A) w :
  (try_catch m (λ e, mret (handler e)) w).2 = (m w).2.
Proof. unfold try_catch. by destruct (m w) as [[e|a] w']. Qed.

(** X6.  Whatever the tool, the arguments and the state, a call either
    sends nothing (the request log, the pending replies and the clock are
    unchanged) or appends exactly one request to the log and consumes one
    reply: there is no retry. *)
Theorem a_call_sends_at_most_one_request `{Host} (name : string) (raw : JsValue) (w : World) :
  let w' := (call_tool name raw w).2 in
  quiet w w' ∨ one_request w w'.
Proof.
  unfold call_tool. destruct (find_tool name) as [tool|]; [|by left].
  rewrite try_catch_world.
  repeat match goal with
         | |- context [if ?b then _ else _] => destruct b
         end; try (by left).
  - apply handle_search_requests.
  - right. apply handle_context_requests.
  - right. apply handle_qna_requests.
Qed.

(** X7.  The context and QnA tools never change the cache: after
    any call of either the cache is what it was, and a call that passes
    validation always sends one request to the backend. *)
Theorem context_and_qna_never_touch_the_cache `{Host} (raw : JsValue) (w : World) :
  cache (call_tool "tavily_get_search_context" raw w).2 = cache w ∧
  cache (call_tool "tavily_qna_search" raw w).2 = cache w ∧
  (query_rejected raw = false →
   one_request w (call_tool "tavily_get_search_context" raw w).2 ∧
   one_request w (call_tool "tavily_qna_search" raw w).2).
Proof.
  unfold call_tool. simpl. rewrite !try_catch_world.
  destruct (query_rejected raw); simpl.
  - done.
  - split; [apply handle_context_requests|]. split; [apply handle_qna_requests|].
    intros _. split; [apply handle_context_requests|apply handle_qna_requests].
Qed.

Lemma context_and_qna_never_touch_the_cache_witness :
  let w := (first_search (H := node_host) rust_args).2 in
  let w' := (call_tool (H := node_host) "tavily_qna_search" rust_args w).2 in
  cache w' = cache w ∧ List.length (sent w') = 2%nat.
Proof.
  intros w w'.
  pose proof (context_and_qna_never_touch_the_cache (H := node_host) rust_args w)
    as (_ & Hcache & Hsend).
  split; [exact Hcache|].
  destruct Hsend as [_ (request_body & Hsent & _)]; [reflexivity|].
  unfold w'. rewrite Hsent, length_app. reflexivity.
Defined.

Lemma cache_get_subseteq (c : gmap string CacheEntry) k t :
  (TavilyCache.get c k t).2 ⊆ c.
Proof.
  unfold TavilyCache.get. destruct (c !! k) as [e|]; [|done].
  destruct (decide _); [apply delete_subseteq|done].
Qed.

Lemma not_live_misses w key : ¬ live (cache w) key (now w) → misses w key.
Proof.
  unfold live, misses, TavilyCache.get.
  destruct (cache w !! key) as [e|]; [|done].
  destruct (decide _) as [Hexp|Hlive]; [done|]. intros Hn. destruct Hn. lia.
Qed.

Lemma accepted_search `{Host} raw :
  query_rejected raw = false →
  call_tool "tavily_search" raw =
  try_catch (handle_search (search_args raw)) (fun error => mret (error_result error)).
Proof. intros Hq. rewrite call_tool_search. by rewrite Hq. Qed.

Lemma accepted_context `{Host} raw :
  query_rejected raw = false →
  call_tool "tavily_get_search_context" raw =
  try_catch (handle_context (context_args raw)) (fun error => mret (error_result error)).
Proof. intros Hq. unfold call_tool. simpl. by rewrite Hq. Qed.

Lemma accepted_qna `{Host} raw :
  query_rejected raw = false →
  call_tool "tavily_qna_search" raw =
  try_catch (handle_qna (qna_args raw)) (fun error => mret (error_result error)).
Proof. intros Hq. unfold call_tool. simpl. by rewrite Hq. Qed.

(** The search handler from the point where the cache gave nothing. *)
Lemma handle_search_miss `{Host} args w :
  misses w (cache_key (destructure_search args)) →
  handle_search args w =
  (let w0 := {| cache := (TavilyCache.get (cache w)
                            (cache_key (destructure_search args)) (now w)).2;
                now := now w; network := network w; sent := sent w |} in
   (start_time ← Date_now;
    response ← fetch (search_body (destructure_search args));
    if negb (ok response)
    then throw (api_error response)
    else
      data ← response_json response;
      end_time ← Date_now;
      let response_time := JNum (end_time - start_time) 3 in
      let search_response :=
        JObj (set_prop "response_time" response_time (spread data)) in
      cache_set (cache_key (destructure_search args)) search_response 3600;;
      mret (text_result (JSON_stringify_2 search_response))) w0).
Proof.
  unfold misses, handle_search. unfold mbind at 1. unfold M_bind at 1. unfold bind at 1.
  unfold cache_get.
  destruct (TavilyCache.get _ _ _) as [v c]. simpl. by intros ->.
Qed.

(** X8.  When the backend answers with a status outside 200-299, each of
    the three tools returns an isError result with the text
    "Tavily API Error (API_ERROR): API request failed: <statusText>" (for
    tavily_search, when the cache had nothing usable), and the search tool
    adds nothing to the cache. *)
Theorem backend_failure_is_reported_and_not_cached `{Host}
    (raw : JsValue) (w : World) (lat : Z) (resp : Response) (rest : list FetchReply) :
  query_rejected raw = false →
  network w = Responds lat resp :: rest →
  ok resp = false →
  let failure := {|
    content := [{| type := "text";
                   text := JStr ("Tavily API Error (API_ERROR): API request failed: " +:+
                                 statusText resp) |}];
    isError := Some true |} in
  (misses w (cache_key (destructure_search (search_args raw))) →
   (call_tool "tavily_search" raw w).1 = inr failure ∧
   cache (call_tool "tavily_search" raw w).2 ⊆ cache w) ∧
  (call_tool "tavily_get_search_context" raw w).1 = inr failure ∧
  (call_tool "tavily_qna_search" raw w).1 = inr failure.
Proof.
  intros Hq Hnet Hok failure. split; [|split].
  - intros Hmiss. rewrite accepted_search by done. unfold try_catch.
    rewrite handle_search_miss by done.
    unfold mbind, M_bind, bind, fetch, Date_now. simpl. rewrite Hnet. simpl.
    rewrite Hok. simpl. split; [done|].
    apply cache_get_subseteq.
  - rewrite accepted_context by done. unfold try_catch, handle_context.
    unfold mbind, M_bind, bind, fetch. rewrite Hnet. simpl. by rewrite Hok.
  - rewrite accepted_qna by done. unfold try_catch, handle_qna.
    unfold mbind, M_bind, bind, fetch. rewrite Hnet. simpl. by rewrite Hok.
Qed.

Lemma backend_failure_is_reported_and_not_cached_witness :
  let w := start [http_500] in
  (call_tool (H := node_host) "tavily_qna_search" rust_args w).1 =
    inr {| content :=
             [{| type := "text";
                 text := JStr "Tavily API Error (API_ERROR): API request failed: Internal Server Error" |}];
           isError := Some true |} ∧
  cache (call_tool (H := node_host) "tavily_search" rust_args w).2 ⊆ cache w.
Proof.
  intros w.
  pose proof (backend_failure_is_reported_and_not_cached (H := node_host) rust_args w 40
    {| status := 500; statusText := "Internal Server Error";
       body := inl "Unexpected end of JSON input" |} [])
    as (Hsearch & _ & Hqna); [reflexivity|reflexivity|reflexivity|].
  split; [exact Hqna|].
  apply Hsearch. reflexivity.
Defined.

(** X9.  A tavily_search call that returns an isError result never adds
    to the cache or changes an entry: the cache it leaves is a sub-map of
    the one it found (at most an expired entry has been evicted). *)
Theorem a_failed_search_stores_nothing `{Host}
    (raw : JsValue) (w w' : World) (r : ToolResult) :
  call_tool "tavily_search" raw w = (inr r, w') →
  isError r = Some true →
  cache w' ⊆ cache w.
Proof.
  rewrite call_tool_search. unfold try_catch.
  destruct (query_rejected raw); [by intros [= <- <-]|].
  unfold handle_search, mbind, M_bind, bind, cache_get.
  pose proof (cache_get_subseteq (cache w)
                (cache_key (destructure_search (search_args raw))) (now w)) as Hsub.
  destruct (TavilyCache.get _ _ _) as [v c]. simpl in *.
  destruct (truthy v); simpl; [by intros [= <- <-]|].
  run_handler w; intros [= <- <-]; simpl; try done.
Qed.

Lemma a_failed_search_stores_nothing_witness :
  ∃ r w', call_tool (H := node_host) "tavily_search" rust_args (start [http_500]) = (inr r, w') ∧
          isError r = Some true ∧ cache w' ⊆ cache (start [http_500]).
Proof.
  destruct (call_tool (H := node_host) "tavily_search" rust_args (start [http_500]))
    as [[e|r] w'] eqn:E; [vm_compute in E; discriminate|].
  exists r, w'. split; [reflexivity|].
  assert (isError r = Some true) as Herr.
  { vm_compute in E. by injection E as <- <-. }
  split; [exact Herr|].
  exact (a_failed_search_stores_nothing (H := node_host) rust_args
           (start [http_500]) w' r E Herr).
Defined.

(** X10.  When the request to the backend fails at the network level,
    each of the three tools returns an isError result whose text is
    "Error: " followed by the message of the failure (for tavily_search,
    when the cache had nothing usable). *)
Theorem network_failure_is_reported `{Host}
    (raw : JsValue) (w : World) (lat : Z) (msg : string) (rest : list FetchReply) :
  query_rejected raw = false →
  network w = Rejects lat msg :: rest →
  let failure := {|
    content := [{| type := "text"; text := JStr ("Error: " +:+ msg) |}];
    isError := Some true |} in
  (misses w (cache_key (destructure_search (search_args raw))) →
   (call_tool "tavily_search" raw w).1 = inr failure) ∧
  (call_tool "tavily_get_search_context" raw w).1 = inr failure ∧
  (call_tool "tavily_qna_search" raw w).1 = inr failure.
Proof.
  intros Hq Hnet failure. split; [|split].
  - intros Hmiss. rewrite accepted_search by done. unfold try_catch.
    rewrite handle_search_miss by done.
    unfold mbind, M_bind, bind, fetch, Date_now. simpl. by rewrite Hnet.
  - rewrite accepted_context by done. unfold try_catch, handle_context.
    unfold mbind, M_bind, bind, fetch. by rewrite Hnet.
  - rewrite accepted_qna by done. unfold try_catch, handle_qna.
    unfold mbind, M_bind, bind, fetch. by rewrite Hnet.
Qed.

Lemma network_failure_is_reported_witness :
  (call_tool (H := node_host) "tavily_search" rust_args
     (start [Rejects 30000 "fetch failed"])).1 =
  inr {| content := [{| type := "text"; text := JStr "Error: fetch failed" |}];
         isError := Some true |}.
Proof.
  apply (network_failure_is_reported (H := node_host) rust_args
           (start [Rejects 30000 "fetch failed"]) 30000 "fetch failed" []);
    reflexivity.
Defined.

(** X11.  For a tavily_qna_search call that passes validation and a
    backend that answers with success: one request with the QnA body is
    sent; the text is the answer property of the reply when that is truthy
    (whatever its type), "No answer found." when it is absent, null, empty
    or otherwise falsy, and a reply that is [null] gives an isError
    result. *)
Theorem qna_returns_the_answer_or_the_fallback `{Host}
    (raw : JsValue) (w : World) (lat : Z) (resp : Response) (rest : list FetchReply)
    (json : JsValue) :
  query_rejected raw = false →
  network w = Responds lat resp :: rest →
  ok resp = true →
  body resp = inr json →
  let out := call_tool "tavily_qna_search" raw w in
  sent out.2 = sent w ++ [qna_body (destructure_qna (qna_args raw))] ∧
  (nullish json = true →
   out.1 = inr (error_result (TypeError (ReadOfNullish json "answer")))) ∧
  (nullish json = false → truthy (opt_get json "answer") = true →
   out.1 = inr (text_result (opt_get json "answer"))) ∧
  (nullish json = false → truthy (opt_get json "answer") = false →
   out.1 = inr (text_result (JStr "No answer found."))).
Proof.
  intros Hq Hnet Hok Hbody out. unfold out.
  rewrite accepted_qna by done. unfold try_catch, handle_qna.
  unfold mbind, M_bind, bind, fetch, response_json. rewrite Hnet. simpl.
  rewrite Hok. simpl. rewrite Hbody. simpl.
  destruct json; simpl; repeat split; try done;
    intros _ Ht; unfold or_else; by rewrite Ht.
Qed.

Lemma qna_returns_the_answer_or_the_fallback_witness :
  (call_tool (H := node_host) "tavily_qna_search" rust_args
     (start [http_ok 250 rust_data])).1 =
    inr (text_result (JStr "Rust uses ownership to manage memory.")) ∧
  (call_tool (H := node_host) "tavily_qna_search" rust_args
     (start [http_ok 100 stale_data])).1 =
    inr (text_result (JStr "No answer found.")).
Proof.
  split.
  - apply (qna_returns_the_answer_or_the_fallback (H := node_host) rust_args
             (start [http_ok 250 rust_data]) 250
             {| status := 200; statusText := "OK"; body := inr rust_data |} [] rust_data);
      reflexivity.
  - apply (qna_returns_the_answer_or_the_fallback (H := node_host) rust_args
             (start [http_ok 100 stale_data]) 100
             {| status := 200; statusText := "OK"; body := inr stale_data |} [] stale_data);
      reflexivity.
Defined.

(** Properties of the object spread with [response_time]. *)
Lemma lookup_set_prop_eq k v props : lookup_prop k (set_prop k v props) = v.
Proof.
  induction props as [|[k' v'] props IH]; simpl.
  - by rewrite String.eqb_refl.
  - destruct (String.eqb k' k) eqn:E; simpl; [by rewrite String.eqb_refl|by rewrite E].
Qed.

Lemma lookup_set_prop_ne k k' v props :
  k' ≠ k → lookup_prop k' (set_prop k v props) = lookup_prop k' props.
Proof.
  intros Hne. induction props as [|[k0 v0] props IH]; simpl.
  - by destruct (String.eqb_spec k k').
  - destruct (String.eqb_spec k0 k) as [->|Hk0]; simpl.
    + by destruct (String.eqb_spec k k').
    + by rewrite IH.
Qed.

Lemma insert_after_get (c : gmap string CacheEntry) k t e :
  <[k := e]> (TavilyCache.get c k t).2 = <[k := e]> c.
Proof.
  unfold TavilyCache.get. destruct (c !! k) as [e0|]; [|done].
  destruct (decide _); [apply insert_delete_eq|done].
Qed.

(** X12.  A tavily_search call that finds nothing usable in the cache and
    gets a successful reply returns the JSON rendering of the reply with
    its response_time set to the measured latency in seconds (replacing a
    response_time the backend sent, all other properties kept), and stores
    exactly that object under its key with the time of completion and a
    TTL of 3600. *)
Theorem a_fetched_search_is_stored_with_its_response_time `{Host}
    (raw : JsValue) (w : World) (lat : Z) (resp : Response) (rest : list FetchReply)
    (json : JsValue) :
  query_rejected raw = false →
  misses w (cache_key (destructure_search (search_args raw))) →
  network w = Responds lat resp :: rest →
  ok resp = true →
  body resp = inr json →
  let key := cache_key (destructure_search (search_args raw)) in
  let stored := JObj (set_prop "response_time" (JNum lat 3) (spread json)) in
  let out := call_tool "tavily_search" raw w in
  out.1 = inr (text_result (response_formatters.json stored)) ∧
  cache out.2 =
    <[key := {| data := stored; timestamp := now w + lat; ttl := 3600 |}]> (cache w) ∧
  now out.2 = now w + lat ∧
  sent out.2 = sent w ++ [search_body (destructure_search (search_args raw))] ∧
  network out.2 = rest ∧
  opt_get stored "response_time" = JNum lat 3 ∧
  (∀ k, k ≠ "response_time" → opt_get stored k = lookup_prop k (spread json)).
Proof.
  intros Hq Hmiss Hnet Hok Hbody key stored out. unfold out.
  rewrite accepted_search by done. unfold try_catch.
  rewrite handle_search_miss by done.
  unfold mbind, M_bind, bind, fetch, Date_now, response_json, cache_set. simpl.
  rewrite Hnet. simpl. rewrite Hok. simpl. rewrite Hbody. simpl.
  replace (now w + lat - now w) with lat by lia.
  split; [done|]. split; [apply insert_after_get|].
  split; [done|]. split; [done|]. split; [done|].
  split; [apply lookup_set_prop_eq|].
  intros k Hk. by apply lookup_set_prop_ne.
Qed.

Lemma a_fetched_search_is_stored_with_its_response_time_witness :
  let json := JObj [("query", JStr "rust ownership"); ("response_time", JNum 187 2);
                    ("results", JArr [])] in
  let out := call_tool (H := node_host) "tavily_search" rust_args (start [http_ok 250 json]) in
  out.1 = inr (text_result (response_formatters.json
            (JObj [("query", JStr "rust ownership"); ("response_time", JNum 250 3);
                   ("results", JArr [])]))) ∧
  now out.2 = 1700000000250.
Proof.
  intros json out.
  pose proof (a_fetched_search_is_stored_with_its_response_time (H := node_host)
    rust_args (start [http_ok 250 json]) 250
    {| status := 200; statusText := "OK"; body := inr json |} [] json)
    as (Hout & _ & Hnow & _); [reflexivity..|].
  split; [exact Hout|exact Hnow].
Defined.

(** X13.  When a tavily_search call has fetched and stored a response,
    the same call made more than 3600 seconds after it completed finds the
    entry expired and sends a new request to the backend. *)
Theorem a_search_after_the_ttl_goes_to_the_backend `{Host}
    (raw : JsValue) (w w1 : World) (r1 : ToolResult) (ms : Z) :
  call_tool "tavily_search" raw w = (inr r1, w1) →
  isError r1 = None →
  w1 ≠ w →
  ms > 3600 * 1000 →
  let w2 := elapse ms w1 in
  misses w2 (cache_key (destructure_search (search_args raw))) ∧
  one_request w2 (call_tool "tavily_search" raw w2).2.
Proof.
  intros Hcall Hok Hfetched Hms w2.
  apply call_tool_search_success in Hcall as [Hq Hrun]; [|done].
  apply handle_search_success in Hrun
    as (e & He & _ & _ & [[-> _]|(Hts & Httl & _)]); [done|].
  set (key := cache_key _) in *.
  assert (TavilyCache.get (cache w2) key (now w2) = (JNull, delete key (cache w1))) as Hget.
  { apply (cache_get_expired _ _ _ e); [done|]. unfold w2. simpl. lia. }
  assert (misses w2 key) as Hmiss by (unfold misses; by rewrite Hget).
  split; [done|].
  rewrite accepted_search by done.
  rewrite try_catch_world. rewrite handle_search_miss by done.
  unfold one_request. run_handler w1; eauto.
Qed.

Lemma a_search_after_the_ttl_goes_to_the_backend_witness :
  let w1 := (first_search (H := node_host) rust_args).2 in
  let w2 := elapse 3600001 w1 in
  List.length (sent (call_tool (H := node_host) "tavily_search" rust_args w2).2) = 2%nat.
Proof.
  intros w1 w2.
  destruct (first_search (H := node_host) rust_args) as [[e|r1] w1'] eqn:E;
    [vm_compute in E; discriminate|].
  assert (w1 = w1') as Hw by reflexivity.
  assert (isError r1 = None ∧ List.length (sent w1') = 1%nat) as [Hok Hsent].
  { vm_compute in E. injection E as <- <-. split; reflexivity. }
  pose proof (a_search_after_the_ttl_goes_to_the_backend (H := node_host)
                rust_args (start two_replies) w1' r1 3600001 E Hok) as Hagain.
  destruct Hagain as [_ (request_body & Hlog & _)].
  - intros Heq. rewrite Heq in Hsent. discriminate.
  - lia.
  - unfold w2. rewrite Hw, Hlog, length_app. simpl in *. rewrite Hsent. reflexivity.
Defined.

(** ** More on the context handler *)

Lemma context_call `{Host} raw w lat resp rest json results contents :
  query_rejected raw = false →
  network w = Responds lat resp :: rest → ok resp = true → body resp = inr json →
  opt_get json "results" = JArr results →
  Forall2 (λ r c, opt_get r "content" = JStr c) results contents →
  (call_tool "tavily_get_search_context" raw w).1 =
  inr (text_result (JStr (slice_from_0 (join (newline +:+ newline) contents)
                            (or_default (JInt 2000) (opt_get raw "max_tokens"))))).
Proof.
  intros Hq Hnet Hok Hbody Hres Hall.
  rewrite accepted_context by done. unfold try_catch, handle_context.
  unfold mbind, M_bind, bind, fetch, response_json. rewrite Hnet. simpl.
  rewrite Hok. simpl. rewrite Hbody. simpl.
  assert (member json "results" = inr (JArr results)) as ->.
  { destruct json; simpl in *; try discriminate. by rewrite Hres. }
  simpl. rewrite (map_contents _ _ _ Hall). simpl.
  by rewrite join_element_strings.
Qed.

Lemma slice_zero `{Host} s v :
  to_integer_or_infinity v = Finite 0 → v ≠ JUndefined → slice_from_0 s v = "".
Proof.
  intros Hv Hdef. unfold slice_from_0. rewrite Hv.
  destruct v; try done; simpl; by rewrite Z.min_l by lia.
Qed.

(** X14.  For a successful tavily_get_search_context call: a negative
    max_tokens -n does not bound the length of the text but removes the
    last n code units of the joined contents, and a max_tokens of 0 or
    null gives the empty text (the default 2000 replaces only an absent
    max_tokens). *)
Theorem context_with_a_negative_or_null_max_tokens `{Host}
    (raw : JsValue) (w : World) (lat : Z) (resp : Response) (rest : list FetchReply)
    (json : JsValue) (results : list JsValue) (contents : list string) :
  query_rejected raw = false →
  network w = Responds lat resp :: rest → ok resp = true → body resp = inr json →
  opt_get json "results" = JArr results →
  Forall2 (λ r c, opt_get r "content" = JStr c) results contents →
  let joined := join (newline +:+ newline) contents in
  let out := (call_tool "tavily_get_search_context" raw w).1 in
  (∀ m, opt_get raw "max_tokens" = JInt m → m < 0 →
     out = inr (text_result
                  (JStr (str_take (String.length joined - Z.to_nat (- m)) joined)))) ∧
  (opt_get raw "max_tokens" = JNull → out = inr (text_result (JStr ""))) ∧
  (opt_get raw "max_tokens" = JInt 0 → out = inr (text_result (JStr ""))).
Proof.
  intros Hq Hnet Hok Hbody Hres Hall joined out.
  pose proof (context_call raw w lat resp rest json results contents
                Hq Hnet Hok Hbody Hres Hall) as Hcall.
  fold joined out in Hcall.
  split; [|split].
  - intros m Hmax Hm. rewrite Hcall, Hmax. simpl. unfold JInt.
    by rewrite slice_negative.
  - intros Hmax. rewrite Hcall, Hmax. by rewrite slice_zero.
  - intros Hmax. rewrite Hcall, Hmax. by rewrite slice_zero.
Qed.

Lemma context_with_a_negative_or_null_max_tokens_witness :
  (call_tool (H := node_host) "tavily_get_search_context"
     (JObj [("query", JStr "rust ownership"); ("max_tokens", JInt (-3))])
     (start [http_ok 5 context_json])).1 =
  inr (text_result (JStr ("hello world" +:+ newline +:+ newline +:+ "sec"))).
Proof.
  pose proof (context_with_a_negative_or_null_max_tokens (H := node_host)
    (JObj [("query", JStr "rust ownership"); ("max_tokens", JInt (-3))])
    (start [http_ok 5 context_json]) 5
    {| status := 200; statusText := "OK"; body := inr context_json |} []
    context_json
    [JObj [("title", JStr "One"); ("content", JStr "hello world")];
     JObj [("title", JStr "Two"); ("content", JStr "second")]]
    ["hello world"; "second"]) as Hthm.
  destruct Hthm as (Hneg & _);
    [reflexivity|reflexivity|reflexivity|reflexivity|reflexivity|repeat constructor|].
  apply (Hneg (-3)); [reflexivity|lia].
Defined.

(** X15.  When the backend answers a context request with success but
    the reply has no results array, the TypeError raised by reading it is
    caught and returned as an isError result. *)
Theorem context_reports_a_reply_without_results `{Host}
    (raw : JsValue) (w : World) (lat : Z) (resp : Response) (rest : list FetchReply)
    (json : JsValue) :
  query_rejected raw = false →
  network w = Responds lat resp :: rest → ok resp = true → body resp = inr json →
  (∀ xs, opt_get json "results" ≠ JArr xs) →
  ∃ fault,
    (call_tool "tavily_get_search_context" raw w).1 = inr (error_result (TypeError fault)) ∧
    fault =
      if nullish json then ReadOfNullish json "results"
      else if nullish (opt_get json "results")
           then ReadOfNullish (opt_get json "results") "map"
           else NotAFunction (opt_get json "results") "map".
Proof.
  intros Hq Hnet Hok Hbody Hres.
  rewrite accepted_context by done. unfold try_catch, handle_context.
  unfold mbind, M_bind, bind, fetch, response_json. rewrite Hnet. simpl.
  rewrite Hok. simpl. rewrite Hbody. simpl.
  eexists. split; [|reflexivity].
  assert (∀ v, (∀ xs, v ≠ JArr xs) →
            array_map (A := JsValue) v (λ result _, member result "content") =
            inl (TypeError (if nullish v then ReadOfNullish v "map"
                            else NotAFunction v "map"))) as Hmap.
  { intros v Hv. destruct v; try reflexivity. by destruct (Hv xs). }
  destruct json; simpl; try done; simpl in Hres; rewrite Hmap by done; simpl;
    by destruct (nullish _).
Qed.

Lemma context_reports_a_reply_without_results_witness :
  (call_tool (H := node_host) "tavily_get_search_context" rust_args
     (start [http_ok 5 (JObj [("detail", JStr "quota exceeded")])])).1 =
  inr (error_result (H := node_host) (TypeError (ReadOfNullish JUndefined "map"))).
Proof.
  pose proof (context_reports_a_reply_without_results (H := node_host) rust_args
    (start [http_ok 5 (JObj [("detail", JStr "quota exceeded")])]) 5
    {| status := 200; statusText := "OK";
       body := inr (JObj [("detail", JStr "quota exceeded")]) |} []
    (JObj [("detail", JStr "quota exceeded")])) as Hthm.
  destruct Hthm as (fault & Hcall & ->);
    [reflexivity|reflexivity|reflexivity|reflexivity|discriminate|].
  exact Hcall.
Defined.

(** ** The formatters *)

Lemma str_app_assoc (a b c : string) : (a +:+ b) +:+ c = a +:+ (b +:+ c).
Proof.
  induction a as [|x a IH]; [done|].
  change (String x ((a +:+ b) +:+ c) = String x (a +:+ (b +:+ c))). by rewrite IH.
Qed.

Lemma starts_with_app (p s : string) : starts_with p (p +:+ s) = true.
Proof.
  induction p as [|x p IH]; [done|].
  change (starts_with (String x p) (String x (p +:+ s)) = true).
  simpl. by rewrite Ascii.eqb_refl.
Qed.

Lemma member_defined v k : nullish v = false → member v k = inr (opt_get v k).
Proof. by destruct v. Qed.

Lemma member_nullish {v k} : nullish v = true → member v k = inl (TypeError (ReadOfNullish v k)).
Proof. by destruct v. Qed.

Lemma map_indexed_succeeds {A} (f : JsValue → nat → Result A) xs i :
  (∀ x j, succeeds (f x j) ↔ nullish x = false) →
  succeeds (map_indexed f i xs) ↔ forallb (λ x, negb (nullish x)) xs = true.
Proof.
  intros Hf. revert i. induction xs as [|x xs IH]; intros i; simpl.
  - split; [done|]. by eexists.
  - specialize (IH (S i)). specialize (Hf x i).
    destruct (f x i) as [e|y]; simpl.
    + split; [intros [a Ha]; discriminate|].
      intros [Hx _]%andb_prop. apply negb_true_iff in Hx.
      apply Hf in Hx as [a Ha]. discriminate.
    + assert (nullish x = false) as -> by (apply Hf; by eexists). simpl.
      destruct (map_indexed f (S i) xs) as [e|ys]; simpl.
      * rewrite <- IH. split; intros [a Ha]; discriminate.
      * split; [intros _; apply IH; by eexists|by eexists].
Qed.

Lemma map_indexed_ext {A} (f g : JsValue → nat → Result A) xs i :
  (∀ x j, f x j = g x j) → map_indexed f i xs = map_indexed g i xs.
Proof.
  intros Hfg. revert i. induction xs as [|x xs IH]; intros i; simpl; [done|].
  by rewrite Hfg, IH.
Qed.

Ltac by_result :=
  repeat match goal with
         | |- context [member ?v ?k] =>
             first [rewrite (member_defined v k) by done
                   |rewrite (@member_nullish v k) by done]
         end; cbn [result_bind].

Lemma text_block_succeeds x (j : nat) :
  succeeds
    (result_bind (member x "title") (fun title =>
     let source := pretty (j + 1)%nat +:+ ". " +:+ to_string title +:+ newline in
     result_bind (member x "url") (fun url =>
     let source := source +:+ "   URL: " +:+ to_string url +:+ newline in
     result_bind (member x "published_date") (fun published_date =>
     let source :=
       if truthy published_date
       then source +:+ "   Published: " +:+ to_string published_date +:+ newline
       else source in
     result_bind (member x "content") (fun content =>
     inr (source +:+ "   Content: " +:+ to_string content +:+ newline))))))
  ↔ nullish x = false.
Proof.
  destruct (nullish x) eqn:E; by_result.
  - split; [intros [a Ha]; discriminate|done].
  - split; [done|]. by eexists.
Qed.

Lemma markdown_block_succeeds x :
  succeeds
    (result_bind (member x "title") (fun title =>
     let source := "### " +:+ to_string title +:+ newline in
     result_bind (member x "url") (fun url =>
     let source := source +:+ "- URL: [" +:+ to_string url +:+ "](" +:+
                   to_string url +:+ ")" +:+ newline in
     result_bind (member x "published_date") (fun published_date =>
     let source :=
       if truthy published_date
       then source +:+ "- Published: " +:+ to_string published_date +:+ newline
       else source in
     result_bind (member x "content") (fun content =>
     inr (source +:+ newline +:+ to_string content +:+ newline))))))
  ↔ nullish x = false.
Proof.
  destruct (nullish x) eqn:E; by_result.
  - split; [intros [a Ha]; discriminate|done].
  - split; [done|]. by eexists.
Qed.

Lemma succeeds_bind {A B} (r : Result A) (k : A → Result B) :
  succeeds (result_bind r k) ↔ ∃ a, r = inr a ∧ succeeds (k a).
Proof.
  destruct r as [e|a]; simpl.
  - split; [intros [b Hb]; discriminate|intros (a & Ha & _); discriminate].
  - split; [by eexists|]. by intros (a' & [= <-] & Hk).
Qed.

(** X16.  On a response whose interpolated values (the query, the
    answer, and every result's title, url, published_date and content) can
    be converted to a string, the text and markdown formatters succeed on
    exactly the same responses: those that are not null or undefined,
    whose results are an array, and none of whose results is null or
    undefined; on every other such response they throw.  When they succeed
    on a response whose query is a string, the output starts with the
    header line made from that query.  (An object with a toString property
    of its own makes the template literal throw, which [to_string] does
    not model; the hypothesis leaves such responses out.) *)
Theorem formatters_render_exactly_the_well_shaped_responses (data : JsValue) :
  interpolations_stringifiable data = true →
  (succeeds (response_formatters.text data) ↔ renderable data = true) ∧
  (succeeds (response_formatters.markdown data) ↔ renderable data = true) ∧
  (∀ q t, opt_get data "query" = JStr q → response_formatters.text data = inr t →
        starts_with ("Search Results for " +:+ dquote +:+ q +:+ dquote +:+ ":" +:+
                     newline +:+ newline) t = true) ∧
  (∀ q t, opt_get data "query" = JStr q → response_formatters.markdown data = inr t →
        starts_with ("# Search Results: " +:+ q +:+ newline +:+ newline) t = true).
Proof.
  intros _.
  unfold renderable.
  destruct (nullish data) eqn:Hdata.
  { unfold response_formatters.text, response_formatters.markdown. by_result.
    repeat split; try done; intros [a Ha]; discriminate. }
  unfold response_formatters.text, response_formatters.markdown. by_result.
  unfold array_map.
  destruct (opt_get data "results") as [| |b|m e|s|xs|props]; cbn [result_bind andb negb];
    try (repeat split; try done; intros [a Ha]; discriminate).
  split; [|split; [|split]].
  - rewrite succeeds_bind. split.
    + intros (sources & Hmap & _).
      apply (map_indexed_succeeds _ xs 0 text_block_succeeds). by eexists.
    + intros Hall.
      apply (map_indexed_succeeds _ xs 0 text_block_succeeds) in Hall as [sources Hmap].
      exists sources. split; [done|by eexists].
  - rewrite succeeds_bind. split.
    + intros (sources & Hmap & _).
      apply (map_indexed_succeeds _ xs 0 (λ x _, markdown_block_succeeds x)). by eexists.
    + intros Hall.
      apply (map_indexed_succeeds _ xs 0 (λ x _, markdown_block_succeeds x)) in Hall
        as [sources Hmap].
      exists sources. split; [done|by eexists].
  - intros q t ->. destruct (map_indexed _ 0 xs) as [e|sources]; cbn [result_bind]; [done|].
    intros [= <-]. cbn [to_string]. destruct (truthy (opt_get data "answer"));
      [rewrite str_app_assoc|]; apply starts_with_app.
  - intros q t ->. destruct (map_indexed _ 0 xs) as [e|sources]; cbn [result_bind]; [done|].
    intros [= <-]. cbn [to_string]. destruct (truthy (opt_get data "answer"));
      [rewrite str_app_assoc|]; apply starts_with_app.
Qed.

Lemma formatters_render_exactly_the_well_shaped_responses_witness :
  interpolations_stringifiable rust_data = true ∧
  succeeds (response_formatters.markdown rust_data) ∧
  ¬ succeeds (response_formatters.text (JObj [("answer", JStr "no results here")])).
Proof.
  split; [reflexivity|]. split.
  - apply (formatters_render_exactly_the_well_shaped_responses rust_data);
      reflexivity.
  - intros Hs.
    apply (formatters_render_exactly_the_well_shaped_responses
             (JObj [("answer", JStr "no results here")])) in Hs; [|reflexivity].
    discriminate.
Defined.

Lemma formatSearchResults_text (data : JsValue) :
  Legacy.formatSearchResults data = response_formatters.text data.
Proof.
  unfold Legacy.formatSearchResults, response_formatters.text.
  destruct (nullish data) eqn:Hdata; by_result; [done|].
  f_equal.
  unfold array_map. destruct (opt_get data "results"); try reflexivity.
  apply map_indexed_ext. intros x j.
  destruct (nullish x) eqn:Hx; by_result; [done|].
  destruct (truthy (opt_get x "published_date")); by rewrite !str_app_assoc.
Qed.

(** X17.  [formatSearchResults] of the earlier server and
    [response_formatters.text] are the same function: on every response
    they return the same text or throw the same error. *)
Theorem the_earlier_formatter_is_the_text_formatter (data : JsValue) :
  Legacy.formatSearchResults data = response_formatters.text data.
Proof. apply formatSearchResults_text. Qed.

(** ** The earlier server *)



(** ** The cache key *)

Lemma unquote_quote_char c r :
  unquote_body (quote_char c +:+ r) = prepend c (unquote_body r).
Proof. destruct c as [[] [] [] [] [] [] [] []]; reflexivity. Qed.

(** Reading back what [QuoteJSONString] wrote. *)
Lemma unquote_quote_body s r :
  unquote_body (quote_body s +:+ dquote +:+ r) = Some (s, r).
Proof.
  induction s as [|c s IH].
  - reflexivity.
  - change (quote_body (String c s)) with (quote_char c +:+ quote_body s).
    rewrite str_app_assoc, unquote_quote_char, IH. reflexivity.
Qed.

Lemma quote_body_inj s1 s2 r1 r2 :
  quote_body s1 +:+ dquote +:+ r1 = quote_body s2 +:+ dquote +:+ r2 →
  s1 = s2 ∧ r1 = r2.
Proof.
  intros E. apply (f_equal unquote_body) in E.
  rewrite !unquote_quote_body in E. by injection E.
Qed.

Lemma cache_key_text p q d t a i r :
  query p = JStr q → search_depth p = JStr d → topic p = JStr t →
  include_answer p = JBool a → include_images p = JBool i →
  include_raw_content p = JBool r →
  cache_key p = key_text q d t a i r.
Proof.
  intros Eq Ed Et Ea Ei Er. unfold cache_key, stringify_object.
  rewrite Eq, Ed, Et, Ea, Ei, Er.
  destruct a, i, r; cbn [serialize default String.eqb join from_option id];
    unfold key_text, quote; rewrite !str_app_assoc; reflexivity.
Qed.

Lemma key_text_inj q1 d1 t1 a1 i1 r1 q2 d2 t2 a2 i2 r2 :
  key_text q1 d1 t1 a1 i1 r1 = key_text q2 d2 t2 a2 i2 r2 →
  q1 = q2 ∧ d1 = d2 ∧ t1 = t2 ∧ a1 = a2 ∧ i1 = i2 ∧ r1 = r2.
Proof.
  unfold key_text. intros E.
  repeat (apply (inj (String.append _)) in E).
  apply quote_body_inj in E as [-> E].
  repeat (apply (inj (String.append _)) in E).
  apply quote_body_inj in E as [-> E].
  repeat (apply (inj (String.append _)) in E).
  apply quote_body_inj in E as [-> E].
  destruct a1, a2, i1, i2, r1, r2; try done; vm_compute in E; discriminate.
Qed.

Lemma typed_key_inj (p1 p2 : TavilySearchParams) :
  key_fields_typed p1 → key_fields_typed p2 →
  cache_key p1 = cache_key p2 →
  query p1 = query p2 ∧ search_depth p1 = search_depth p2 ∧ topic p1 = topic p2 ∧
  include_answer p1 = include_answer p2 ∧ include_images p1 = include_images p2 ∧
  include_raw_content p1 = include_raw_content p2.
Proof.
  intros ([q1 Eq1] & [d1 Ed1] & [t1 Et1] & [a1 Ea1] & [i1 Ei1] & [r1 Er1]).
  intros ([q2 Eq2] & [d2 Ed2] & [t2 Et2] & [a2 Ea2] & [i2 Ei2] & [r2 Er2]).
  rewrite (cache_key_text p1 q1 d1 t1 a1 i1 r1), (cache_key_text p2 q2 d2 t2 a2 i2 r2)
    by done.
  intros (-> & -> & -> & -> & -> & ->)%key_text_inj.
  by rewrite Eq1, Eq2, Ed1, Ed2, Et1, Et2, Ea1, Ea2, Ei1, Ei2, Er1, Er2.
Qed.

(** X19.  The cache key determines the key fields: for parameters whose
    query, search_depth and topic are strings and whose include_answer,
    include_images and include_raw_content are booleans, equal cache keys
    imply that all six fields are equal.  The quoting of JSON strings is
    what makes this hold for queries that contain quotes or commas. *)
Theorem typed_requests_with_different_key_fields_get_different_keys
    (p1 p2 : TavilySearchParams) :
  key_fields_typed p1 → key_fields_typed p2 →
  cache_key p1 = cache_key p2 →
  query p1 = query p2 ∧ search_depth p1 = search_depth p2 ∧ topic p1 = topic p2 ∧
  include_answer p1 = include_answer p2 ∧ include_images p1 = include_images p2 ∧
  include_raw_content p1 = include_raw_content p2.
Proof. apply typed_key_inj. Qed.

Lemma typed_requests_with_different_key_fields_get_different_keys_witness :
  let p1 := destructure_search (search_args (JObj [("query", JStr "a,b")])) in
  let p2 := destructure_search
              (search_args (JObj [("query", JStr "a"); ("topic", JStr "news")])) in
  cache_key p1 ≠ cache_key p2.
Proof.
  intros p1 p2 Hkey.
  assert (key_fields_typed p1) as H1 by (repeat split; eexists; reflexivity).
  assert (key_fields_typed p2) as H2 by (repeat split; eexists; reflexivity).
  pose proof (typed_requests_with_different_key_fields_get_different_keys p1 p2 H1 H2 Hkey)
    as (Hq & _).
  discriminate Hq.
Defined.

Lemma cache_get_other (c : gmap string CacheEntry) k k' t :
  k' ≠ k → (TavilyCache.get c k t).2 !! k' = c !! k'.
Proof.
  intros Hne. unfold TavilyCache.get. destruct (c !! k) as [e|]; [|done].
  destruct (decide _); [|done]. simpl. by rewrite lookup_delete_ne.
Qed.

Lemma search_keeps_other_keys `{Host} (raw : JsValue) (w : World) (k : string) :
  k ≠ cache_key (destructure_search (search_args raw)) →
  cache (call_tool "tavily_search" raw w).2 !! k = cache w !! k.
Proof.
  intros Hk. rewrite call_tool_search, try_catch_world.
  destruct (query_rejected raw); [done|].
  unfold handle_search, mbind, M_bind, bind, cache_get.
  pose proof (cache_get_other (cache w) _ k (now w) Hk) as Hget.
  destruct (TavilyCache.get _ _ _) as [v c]. simpl in *.
  destruct (truthy v); simpl; [done|].
  run_handler w; try done.
  unfold TavilyCache.set. by rewrite lookup_insert_ne.
Qed.

(** X20.  A tavily_search call, whatever its outcome, leaves every cache
    entry other than the one under its own key as it was. *)
Theorem a_search_touches_only_its_own_entry `{Host}
    (raw : JsValue) (w : World) (k : string) :
  k ≠ cache_key (destructure_search (search_args raw)) →
  cache (call_tool "tavily_search" raw w).2 !! k = cache w !! k.
Proof. apply search_keeps_other_keys. Qed.

Lemma a_search_touches_only_its_own_entry_witness :
  let w1 := (first_search (H := node_host) rust_args).2 in
  let other := JObj [("query", JStr "borrow checker")] in
  cache (call_tool (H := node_host) "tavily_search" other w1).2 !! rust_key =
  cache w1 !! rust_key.
Proof.
  intros w1 other.
  apply (a_search_touches_only_its_own_entry (H := node_host) other w1 rust_key).
  vm_compute. discriminate.
Defined.

Lemma a_miss_sends_a_request `{Host} args w :
  misses w (cache_key (destructure_search args)) →
  one_request w (handle_search args w).2.
Proof.
  intros Hmiss. rewrite handle_search_miss by done.
  unfold one_request. run_handler w; eauto.
Qed.

(** X21.  Starting from an empty cache, a search whose (typed) key fields
    differ in any one field from those of the search made before it is not
    answered from the cache: it sends its own request to the backend. *)
Theorem a_different_request_is_not_served_from_another_entry `{Host}
    (raw1 raw2 : JsValue) (w : World) (ms : Z) :
  let p1 := destructure_search (search_args raw1) in
  let p2 := destructure_search (search_args raw2) in
  cache w = ∅ →
  query_rejected raw2 = false →
  key_fields_typed p1 → key_fields_typed p2 →
  ¬ (query p1 = query p2 ∧ search_depth p1 = search_depth p2 ∧ topic p1 = topic p2 ∧
     include_answer p1 = include_answer p2 ∧ include_images p1 = include_images p2 ∧
     include_raw_content p1 = include_raw_content p2) →
  let w1 := elapse ms (call_tool "tavily_search" raw1 w).2 in
  one_request w1 (call_tool "tavily_search" raw2 w1).2.
Proof.
  intros p1 p2 Hempty Hq H1 H2 Hdiff w1.
  assert (cache_key p2 ≠ cache_key p1) as Hkey.
  { intros E. apply Hdiff. symmetry in E. 
    by apply typed_key_inj. }
  assert (misses w1 (cache_key p2)) as Hmiss.
  { unfold misses. rewrite cache_get_absent; [done|].
    unfold w1. simpl. rewrite search_keeps_other_keys by done.
    by rewrite Hempty. }
  rewrite accepted_search, try_catch_world by done.
  by apply a_miss_sends_a_request.
Qed.

Lemma a_different_request_is_not_served_from_another_entry_witness :
  let other := JObj [("query", JStr "rust ownership"); ("topic", JStr "news")] in
  let w1 := elapse 1000 (first_search (H := node_host) rust_args).2 in
  List.length (sent (call_tool (H := node_host) "tavily_search" other w1).2) = 2%nat.
Proof.
  intros other w1.
  pose proof (a_different_request_is_not_served_from_another_entry (H := node_host)
                rust_args other (start two_replies) 1000) as Hthm.
  destruct Hthm as (request_body & Hlog & _).
  - reflexivity.
  - reflexivity.
  - repeat split; eexists; reflexivity.
  - repeat split; eexists; reflexivity.
  - intros (_ & _ & Htopic & _). discriminate Htopic.
  - unfold w1, first_search. rewrite Hlog, length_app. reflexivity.
Defined.
